(** * neuralmonkey/model/sequence_split.py

    A shallow embedding of [SequenceSplitter] and [split_by_factor].

    Python objects are kept in a store (object identity -> attribute
    dictionary); the TensorFlow default graph is the list of tensors the
    calls have created so far; exceptions are results carrying the line
    numbers of the statements they went through.  A tensor is modelled by
    its static shape (what [get_shape] knows when the graph is built), its
    run-time shape (what [tf.shape] yields) and its elements in row-major
    order.  A tensor is followed to its evaluation under one feed:
    [InvalidArgument] is the refusal of the execution engine, which the
    program meets when the tensor is run; the exceptions of Python itself
    are raised by the call. *)

From Stdlib Require Import ZArith List Bool String Lia.
From stdpp Require Import gmap strings list fin_maps.

Local Open Scope string_scope.
Local Open Scope Z_scope.

(** ** Exceptions and results *)

Inductive exn : Type :=
| NameError (name : string)
| AttributeError (attr : string)
| TypeError (what : string)
| IndexError
| ZeroDivisionError
| OverflowError
| ValueError (fmt : string) (args : list (option Z))
| InvalidArgument (op : string).

(** An exception together with the source lines it was raised through,
    outermost statement first (a traceback). *)
Definition exception : Type := exn * list nat.

Inductive result (A : Type) : Type :=
| Ok (a : A)
| Err (e : exception).

Arguments Ok {A} a.
Arguments Err {A} e.

Definition raise_exn {A : Type} (e : exn) : result A := Err (e, nil).

Definition is_ok {A : Type} (r : result A) : bool :=
  match r with Ok _ => true | Err _ => false end.

(** An exception leaving the statement of line [n] has the line added to
    its traceback. *)
Definition traced {A : Type} (n : nat) (r : result A) : result A :=
  match r with
  | Ok a => Ok a
  | Err (e, tb) => Err (e, n :: tb)
  end.

(** ** Python integer arithmetic used by the module *)

(** [a // b] on Python ints: floor division, [ZeroDivisionError] on 0. *)
Definition py_floordiv (a b : Z) : result Z :=
  if b =? 0 then raise_exn ZeroDivisionError else Ok (a / b).

(** [a % b] on Python ints: the remainder has the sign of [b]. *)
Definition py_mod (a b : Z) : result Z :=
  if b =? 0 then raise_exn ZeroDivisionError else Ok (a mod b).

(** [n * [x]]: list repetition; a count below one gives the empty list. *)
Definition py_list_repeat {X : Type} (n : Z) (x : X) : list X :=
  repeat x (Z.to_nat n).

(** ** Tensors *)

Module tf.
Section Tensors.
Context {A : Type}.

Record Tensor : Type := mkTensor {
  static_shape : list (option Z);
  dims : list Z;
  data : list A
}.

(** Number of elements of a shape. *)
Definition numel (d : list Z) : Z := fold_right Z.mul 1 d.

(** [tf.int32], the type in which [tf.shape] reports dimensions and in
    which the module computes with them. *)
Definition int32_min : Z := - 2 ^ 31.
Definition int32_max : Z := 2 ^ 31 - 1.

Definition fits_int32 (z : Z) : bool := (int32_min <=? z) && (z <=? int32_max).

(** Two's complement wrap-around to 32 bits. *)
Definition wrap_int32 (z : Z) : Z := (z + 2 ^ 31) mod 2 ^ 32 - 2 ^ 31.

(** [x * n] for an int32 scalar tensor [x] and a Python int [n]: [n]
    becomes an int32 constant, which is refused when it does not fit, and
    the product wraps. *)
Definition int32_mul (x n : Z) : result Z :=
  if fits_int32 n then Ok (wrap_int32 (x * n)) else raise_exn OverflowError.

Definition dim_agrees (s : option Z) (d : Z) : bool :=
  match s with Some z => z =? d | None => true end.

Fixpoint static_agrees (s : list (option Z)) (d : list Z) : bool :=
  match s, d with
  | nil, nil => true
  | x :: s', y :: d' => dim_agrees x y && static_agrees s' d'
  | _, _ => false
  end.

(** Well-formed tensor: dimensions that are non-negative and that
    [tf.shape] can report as int32, a static shape that agrees with the
    run-time one, and one element per index. *)
Definition wf (t : Tensor) : bool :=
  forallb (fun d => (0 <=? d) && (d <=? int32_max)) (dims t)
  && static_agrees (static_shape t) (dims t)
  && (Z.of_nat (length (data t)) =? numel (dims t)).

(** Row-major offset of a multi-index. *)
Fixpoint flat_index_from (acc : Z) (d idx : list Z) : Z :=
  match d, idx with
  | x :: d', i :: idx' => flat_index_from (acc * x + i) d' idx'
  | _, _ => acc
  end.

Definition flat_index (d idx : list Z) : Z := flat_index_from 0 d idx.

Definition in_bounds (d idx : list Z) : bool :=
  (length d =? length idx)%nat
  && forallb (fun p => (0 <=? snd p) && (snd p <? fst p)) (combine d idx).

(** Element at a multi-index. *)
Definition get (t : Tensor) (idx : list Z) : option A :=
  if in_bounds (dims t) idx
  then nth_error (data t) (Z.to_nat (flat_index (dims t) idx))
  else None.

Definition insert_at {X : Type} (n : nat) (x : X) (l : list X) : list X :=
  firstn n l ++ x :: skipn n l.

Definition remove_at {X : Type} (n : nat) (l : list X) : list X :=
  firstn n l ++ skipn (S n) l.

(** Axis of an op that adds a dimension to a rank-[r] tensor: allowed
    range [-(r+1), r], negative values counted from the end. *)
Definition new_axis (r : nat) (axis : Z) : option nat :=
  let r' := Z.of_nat r in
  if (- (r' + 1) <=? axis) && (axis <=? r')
  then Some (Z.to_nat (if axis <? 0 then axis + r' + 1 else axis))
  else None.

(** Axis of an op that addresses an existing dimension: [-r, r-1]. *)
Definition old_axis (r : nat) (axis : Z) : option nat :=
  let r' := Z.of_nat r in
  if (- r' <=? axis) && (axis <? r')
  then Some (Z.to_nat (if axis <? 0 then axis + r' else axis))
  else None.

(** [tf.shape(t)]: the run-time shape. *)
Definition shape (t : Tensor) : list Z := dims t.

(** [tf.expand_dims(t, axis)]. *)
Definition expand_dims (t : Tensor) (axis : Z) : result Tensor :=
  match new_axis (length (dims t)) axis with
  | Some a =>
      Ok {| static_shape := insert_at a (Some 1) (static_shape t);
            dims := insert_at a 1 (dims t);
            data := data t |}
  | None => raise_exn (InvalidArgument "ExpandDims")
  end.

Definition chunk (inner : nat) (o : nat) (l : list A) : list A :=
  firstn inner (skipn (o * inner) l).

(** Elements of the stacked tensor: for every index before the new axis,
    the corresponding block of every input, in input order. *)
Definition stack_data (outer inner : nat) (ts : list Tensor) : list A :=
  flat_map (fun o => flat_map (fun t => chunk inner o (data t)) ts)
           (seq 0 outer).

Definition same_dims (d1 d2 : list Z) : bool :=
  bool_decide (d1 = d2).

(** [tf.stack(values, axis)]: the shape is read off [values[0]], an
    [IndexError] on the empty list; the values are all of one shape. *)
Definition stack (ts : list Tensor) (axis : Z) : result Tensor :=
  match ts with
  | nil => raise_exn IndexError
  | t0 :: _ =>
      if forallb (fun t => same_dims (dims t) (dims t0)) ts then
        match new_axis (length (dims t0)) axis with
        | Some a =>
            let k := Z.of_nat (length ts) in
            Ok {| static_shape := insert_at a (Some k) (static_shape t0);
                  dims := insert_at a k (dims t0);
                  data := stack_data (Z.to_nat (numel (firstn a (dims t0))))
                                     (Z.to_nat (numel (skipn a (dims t0))))
                                     ts |}
        | None => raise_exn (InvalidArgument "Pack")
        end
      else raise_exn (InvalidArgument "Pack")
  end.

(** [tf.squeeze(t, axis=axis)]: the dimension removed must be 1. *)
Definition squeeze (t : Tensor) (axis : Z) : result Tensor :=
  match old_axis (length (dims t)) axis with
  | Some a =>
      match nth_error (dims t) a with
      | Some 1 =>
          Ok {| static_shape := remove_at a (static_shape t);
                dims := remove_at a (dims t);
                data := data t |}
      | _ => raise_exn (InvalidArgument "Squeeze")
      end
  | None => raise_exn (InvalidArgument "Squeeze")
  end.

(** An entry of the shape list given to [tf.reshape]: a scalar tensor
    (known when the graph runs) or a Python int (known when it is built). *)
Inductive dim_arg : Type :=
| DTensor (z : Z)
| DInt (z : Z).

Definition dim_value (d : dim_arg) : Z :=
  match d with DTensor z => z | DInt z => z end.

Definition dim_static (d : dim_arg) : option Z :=
  match d with
  | DTensor _ => None
  | DInt z => if z =? -1 then None else Some z
  end.

(** The shape requested of [tf.reshape], with a single [-1] entry
    replaced by the size that is left; [None] when the request is not a
    shape of [n] elements. *)
Definition resolve_shape (n : Z) (req : list Z) : option (list Z) :=
  let known := List.filter (fun d => negb (d =? -1)) req in
  let holes := (length req - length known)%nat in
  if negb (forallb (fun d => 0 <=? d) known) then None
  else match holes with
       | O => if numel req =? n then Some req else None
       | S O =>
           let p := numel known in
           if (p =? 0) || negb (n mod p =? 0) then None
           else Some (map (fun d => if d =? -1 then n / p else d) req)
       | _ => None
       end.

(** [tf.reshape(t, shape)]: the elements stay in row-major order.  A
    request that is no shape of the elements is what the engine refuses
    when the tensor is run. *)
Definition reshape (t : Tensor) (req : list dim_arg) : result Tensor :=
  match resolve_shape (Z.of_nat (length (data t))) (map dim_value req) with
  | Some d =>
      Ok {| static_shape := map dim_static req;
            dims := d;
            data := data t |}
  | None => raise_exn (InvalidArgument "Reshape")
  end.

End Tensors.
Arguments Tensor A : clear implicits.
End tf.

(** ** Objects, values and the interpreter state *)

(** Identity of a Python object (what [set([self])] compares). *)
Definition obj_id : Type := positive.

(** The capability consumed from [parent]: its two tensors and the set of
    model parts it depends on. *)
Module TemporalStateful.
Section Capability.
Context {A : Type}.

Record t : Type := mk {
  id : obj_id;
  temporal_states : tf.Tensor A;
  temporal_mask : tf.Tensor A;
  get_dependencies : gset obj_id
}.

End Capability.
Arguments t A : clear implicits.
End TemporalStateful.

Section Values.
Context {A : Type}.

(** [Callable] of the signature: an elementwise activation. *)
Definition Callable : Type := tf.Tensor A -> tf.Tensor A.

(** Values that names and attributes of this module hold. *)
Inductive value : Type :=
| VNone
| VInt (z : Z)
| VCallable (f : Callable)
| VStateful (p : TemporalStateful.t A)
| VObject (o : obj_id)
| VGlobal (name : string).

(** Truth value of an [if] condition. *)
Definition truthy (v : value) : bool :=
  match v with
  | VNone => false
  | VInt z => negb (z =? 0)
  | _ => true
  end.

Definition of_optional {X : Type} (f : X -> value) (o : option X) : value :=
  match o with Some x => f x | None => VNone end.

(** The default graph: the tensors created so far, each named by the op
    that made it, and the model parts registered by name. *)
Record Graph : Type := mkGraph {
  tensors : list string;
  parts : list (string * obj_id)
}.

Record State : Type := mkState {
  store : gmap obj_id (gmap string value);
  cache : gmap (obj_id * string) (tf.Tensor A);
  graph : Graph
}.

(** Computations: state passing with exceptions. *)
Definition M (X : Type) : Type := State -> result X * State.

Definition ret {X : Type} (x : X) : M X := fun st => (Ok x, st).

Definition bind {X Y : Type} (m : M X) (k : X -> M Y) : M Y :=
  fun st =>
    match m st with
    | (Ok x, st') => k x st'
    | (Err e, st') => (Err e, st')
    end.

Definition raise {X : Type} (e : exn) : M X := fun st => (raise_exn e, st).

Definition lift {X : Type} (r : result X) : M X := fun st => (r, st).

(** Run the statement of source line [n]. *)
Definition at_line {X : Type} (n : nat) (m : M X) : M X :=
  fun st => let (r, st') := m st in (traced n r, st').

End Values.

Arguments value A : clear implicits.
Arguments State A : clear implicits.
Arguments M A X : clear implicits.
Arguments Callable A : clear implicits.

Notation "'do' x <- m ;; k" := (bind m (fun x => k))
  (at level 10, x name, m at level 99, k at level 200).
Notation "'do_' m ;; k" := (bind m (fun _ => k))
  (at level 10, m at level 99, k at level 200).

(** ** Name resolution *)

(** Names bound at module level by the imports and definitions of the
    file, and the ones every module has. *)
Definition module_globals : list string :=
  ["Callable"; "Set"; "tf"; "check_argument_types"; "tensor"; "Dataset";
   "ModelPart"; "FeedDict"; "TemporalStateful"; "SequenceSplitter";
   "split_by_factor";
   "__name__"; "__doc__"; "__package__"; "__loader__"; "__spec__";
   "__file__"; "__cached__"; "__builtins__"].

(** Names of the [builtins] module. *)
Definition builtins : list string :=
  ["abs"; "all"; "any"; "ascii"; "bin"; "bool"; "breakpoint"; "bytearray";
   "bytes"; "callable"; "chr"; "classmethod"; "compile"; "complex";
   "copyright"; "credits"; "delattr"; "dict"; "dir"; "divmod"; "enumerate";
   "eval"; "exec"; "exit"; "filter"; "float"; "format"; "frozenset";
   "getattr"; "globals"; "hasattr"; "hash"; "help"; "hex"; "id"; "input";
   "int"; "isinstance"; "issubclass"; "iter"; "len"; "license"; "list";
   "locals"; "map"; "max"; "memoryview"; "min"; "next"; "object"; "oct";
   "open"; "ord"; "pow"; "print"; "property"; "quit"; "range"; "repr";
   "reversed"; "round"; "set"; "setattr"; "slice"; "sorted";
   "staticmethod"; "str"; "sum"; "super"; "tuple"; "type"; "vars"; "zip";
   "__import__"; "__build_class__"; "__debug__";
   "None"; "True"; "False"; "Ellipsis"; "NotImplemented";
   "ArithmeticError"; "AssertionError"; "AttributeError"; "BaseException";
   "BlockingIOError"; "BrokenPipeError"; "BufferError"; "BytesWarning";
   "ChildProcessError"; "ConnectionAbortedError"; "ConnectionError";
   "ConnectionRefusedError"; "ConnectionResetError"; "DeprecationWarning";
   "EOFError"; "EnvironmentError"; "Exception"; "FileExistsError";
   "FileNotFoundError"; "FloatingPointError"; "FutureWarning";
   "GeneratorExit"; "IOError"; "ImportError"; "ImportWarning";
   "IndentationError"; "IndexError"; "InterruptedError";
   "IsADirectoryError"; "KeyError"; "KeyboardInterrupt"; "LookupError";
   "MemoryError"; "ModuleNotFoundError"; "NameError"; "NotADirectoryError";
   "NotImplementedError"; "OSError"; "OverflowError";
   "PendingDeprecationWarning"; "PermissionError"; "ProcessLookupError";
   "RecursionError"; "ReferenceError"; "ResourceWarning"; "RuntimeError";
   "RuntimeWarning"; "StopAsyncIteration"; "StopIteration"; "SyntaxError";
   "SyntaxWarning"; "SystemError"; "SystemExit"; "TabError";
   "TimeoutError"; "TypeError"; "UnboundLocalError"; "UnicodeDecodeError";
   "UnicodeEncodeError"; "UnicodeError"; "UnicodeTranslateError";
   "UnicodeWarning"; "UserWarning"; "ValueError"; "Warning";
   "ZeroDivisionError"].

Section Names.
Context {A : Type}.

(** The local variables of a running function. *)
Definition frame : Type := list (string * value A).

Fixpoint frame_lookup (fr : frame) (x : string) : option (value A) :=
  match fr with
  | nil => None
  | (y, v) :: fr' => if String.eqb x y then Some v else frame_lookup fr' x
  end.

Definition mem_string (x : string) (l : list string) : bool :=
  existsb (String.eqb x) l.

(** Value of the name [x]: a local, else a module global, else a builtin,
    else the name is not defined. *)
Definition resolve (fr : frame) (x : string) : option (value A) :=
  match frame_lookup fr x with
  | Some v => Some v
  | None =>
      if mem_string x module_globals || mem_string x builtins
      then Some (VGlobal x)
      else None
  end.

Definition load_name (fr : frame) (x : string) : M A (value A) :=
  match resolve fr x with
  | Some v => ret v
  | None => raise (NameError x)
  end.

End Names.

(** ** Store, graph and TensorFlow calls *)

Section Runtime.
Context {A : Type}.

Definition with_store (st : State A) (s : gmap obj_id (gmap string (value A)))
  : State A :=
  mkState s (cache st) (graph st).

Definition with_graph (st : State A) (g : Graph) : State A :=
  mkState (store st) (cache st) g.

Definition attrs_of (st : State A) (o : obj_id) : gmap string (value A) :=
  default ∅ (store st !! o).

(** [o.name] on an object of the store. *)
Definition getattr (o : obj_id) (name : string) : M A (value A) :=
  fun st =>
    match attrs_of st o !! name with
    | Some v => (Ok v, st)
    | None => (raise_exn (AttributeError name), st)
    end.

(** [o.name = v]. *)
Definition setattr (o : obj_id) (name : string) (v : value A) : M A unit :=
  fun st => (Ok tt, with_store st (<[o := <[name := v]> (attrs_of st o)]> (store st))).

Definition as_int (v : value A) : result Z :=
  match v with
  | VInt z => Ok z
  | _ => raise_exn (TypeError "int expected")
  end.

(** [v.temporal_states], [v.temporal_mask], [v.get_dependencies()]. *)
Definition attr_temporal_states (v : value A) : result (tf.Tensor A) :=
  match v with
  | VStateful p => Ok (TemporalStateful.temporal_states p)
  | _ => raise_exn (AttributeError "temporal_states")
  end.

Definition attr_temporal_mask (v : value A) : result (tf.Tensor A) :=
  match v with
  | VStateful p => Ok (TemporalStateful.temporal_mask p)
  | _ => raise_exn (AttributeError "temporal_mask")
  end.

Definition call_get_dependencies (v : value A) : result (gset obj_id) :=
  match v with
  | VStateful p => Ok (TemporalStateful.get_dependencies p)
  | _ => raise_exn (AttributeError "get_dependencies")
  end.

Definition add_tensor (op : string) (st : State A) : State A :=
  with_graph st (mkGraph (tensors (graph st) ++ [op]) (parts (graph st))).

(** A TensorFlow call: when it succeeds, its tensor joins the graph. *)
Definition tf_op {X : Type} (op : string) (r : result X) : M A X :=
  fun st =>
    match r with
    | Ok x => (Ok x, add_tensor op st)
    | Err e => (Err e, st)
    end.

(** [s[i]] on the tensor returned by [tf.shape]. *)
Definition shape_getitem (s : list Z) (i : nat) : M A Z :=
  tf_op "StridedSlice"
        (match nth_error s i with
         | Some d => Ok d
         | None => raise_exn (InvalidArgument "StridedSlice")
         end).

(** [t.get_shape()[i].value]: the static dimension, [None] when unknown. *)
Definition get_shape_value (t : tf.Tensor A) (i : nat) : result (option Z) :=
  match nth_error (tf.static_shape t) i with
  | Some d => Ok d
  | None => raise_exn IndexError
  end.

(** [d // factor] and [d % factor] where [d] is a static dimension. *)
Definition dimension_floordiv (d : option Z) (factor : Z) : result Z :=
  match d with
  | Some z => py_floordiv z factor
  | None => raise_exn (TypeError "unsupported operand type(s) for //")
  end.

Definition dimension_mod (d : option Z) (factor : Z) : result Z :=
  match d with
  | Some z => py_mod z factor
  | None => raise_exn (TypeError "unsupported operand type(s) for %")
  end.

(** ** [split_by_factor] (lines 68-74) *)

Definition split_by_factor (tensor_3d : tf.Tensor A) (factor : Z)
  : M A (tf.Tensor A) :=
  do orig_shape <- at_line 69 (tf_op "Shape" (Ok (tf.shape tensor_3d))) ;;
  do batch_size <- at_line 70 (shape_getitem orig_shape 0) ;;
  do max_time <- at_line 71 (shape_getitem orig_shape 1) ;;
  do state_dim <- at_line 72 (lift (get_shape_value tensor_3d 2)) ;;
  at_line 73
    (do new_time <- tf_op "Mul" (tf.int32_mul max_time factor) ;;
     do new_dim <- lift (dimension_floordiv state_dim factor) ;;
     tf_op "Reshape"
           (tf.reshape tensor_3d
              [tf.DTensor batch_size; tf.DTensor new_time; tf.DInt new_dim])).

(** Modelled from the spec: the decorator [tensor] of
    neuralmonkey.decorators, which is not part of this file.  The spec
    describes it as an on-demand compute-once cache: compute on first
    access, store, return the stored value on subsequent access. *)
Definition tensor (name : string) (func : obj_id -> M A (tf.Tensor A))
  (self : obj_id) : M A (tf.Tensor A) :=
  fun st =>
    match cache st !! (self, name) with
    | Some v => (Ok v, st)
    | None =>
        match func self st with
        | (Ok v, st') =>
            (Ok v, mkState (store st') (<[(self, name) := v]> (cache st'))
                           (graph st'))
        | (Err e, st') => (Err e, st')
        end
    end.

End Runtime.

Module ModelPart.
Section Init.
Context {A : Type}.

(** Modelled from the spec: [ModelPart.__init__] of
    neuralmonkey.model.model_part, which is not part of this file.  The
    spec gives its effect as: the component registers itself as a named
    part of the model graph. *)
Definition __init__ (self : obj_id) (name : string)
  (save_checkpoint load_checkpoint initializers : value A) : M A unit :=
  fun st =>
    (Ok tt, with_graph st (mkGraph (tensors (graph st))
                                   (parts (graph st) ++ [(name, self)]))).

End Init.
End ModelPart.

(** ** [check_argument_types] (typeguard) *)

Inductive annotation : Type :=
| AnnStateful
| AnnInt
| AnnCallable
| AnnOptional (a : annotation).

Section Typeguard.
Context {A : Type}.

Fixpoint has_type (v : value A) (a : annotation) : bool :=
  match a, v with
  | AnnStateful, VStateful _ => true
  | AnnInt, VInt _ => true
  | AnnCallable, VCallable _ => true
  | AnnOptional _, VNone => true
  | AnnOptional a', _ => has_type v a'
  | _, _ => false
  end.

(** Every annotated argument of the running call has its annotated type,
    else [TypeError]. *)
Definition check_argument_types (fr : frame) (anns : list (string * annotation))
  : M A unit :=
  if forallb (fun xa => match frame_lookup fr (fst xa) with
                        | Some v => has_type v (snd xa)
                        | None => false
                        end) anns
  then ret tt
  else raise (TypeError "type of argument").

End Typeguard.

(** ** class [SequenceSplitter] (lines 12-65) *)

Module SequenceSplitter.
Section Class.
Context {A : Type}.

(** Batches of the data set; [feed_dict] does not look at them. *)
Variable Dataset : Type.

(** [tf.layers.dense(inputs, units, activation=...)] of TensorFlow: any
    function of its arguments and the graph. *)
Variable tf_layers_dense :
  tf.Tensor A -> value A -> value A -> Graph -> result (tf.Tensor A) * Graph.

Definition call_dense (inputs : tf.Tensor A) (units activation : value A)
  : M A (tf.Tensor A) :=
  fun st =>
    let (r, g) := tf_layers_dense inputs units activation (graph st) in
    (r, with_graph st g).

(** Values fed to placeholders, by placeholder name. *)
Definition FeedDict : Type := gmap string (tf.Tensor A).

(** Annotations of the signature of [__init__]; a default of [None]
    makes the annotated type optional. *)
Definition init_annotations : list (string * annotation) :=
  [("parent", AnnStateful); ("factor", AnnInt);
   ("projection_size", AnnOptional AnnInt);
   ("projection_activation", AnnOptional AnnCallable)].

Definition init_frame (self : obj_id) (parent : TemporalStateful.t A)
  (factor : Z) (projection_size : option Z)
  (projection_activation : option (Callable A)) : frame :=
  [("self", VObject self); ("parent", VStateful parent);
   ("factor", VInt factor);
   ("projection_size", of_optional VInt projection_size);
   ("projection_activation", of_optional VCallable projection_activation)].

Definition divisibility_message : string :=
  "Dimension of the parent temporal stateful ({}) must be dividable by the given factor ({}).".

(** Lines 36-41: the check of the feature dimension. *)
Definition init_check (fr : frame (A:=A)) : M A unit :=
  do state_dim <-
    at_line 36
      (do p <- load_name fr "parent" ;;
       do ts <- lift (attr_temporal_states p) ;;
       lift (get_shape_value ts 2)) ;;
  do r <-
    at_line 37
      (do f <- load_name fr "factor" ;;
       do factor <- lift (as_int f) ;;
       lift (dimension_mod state_dim factor)) ;;
  if negb (r =? 0)
  then at_line 38
         (do f <- load_name fr "factor" ;;
          do factor <- lift (as_int f) ;;
          raise (ValueError divisibility_message [state_dim; Some factor]))
  else ret tt.

(** Lines 13-41. *)
Definition __init__ (self : obj_id) (parent : TemporalStateful.t A)
  (factor : Z) (projection_size : option Z)
  (projection_activation : option (Callable A)) : M A unit :=
  let fr := init_frame self parent factor projection_size
                       projection_activation in
  do_ at_line 26 (check_argument_types fr init_annotations) ;;
  do_ at_line 28 (ModelPart.__init__ self "sequence_split" VNone VNone VNone) ;;
  do_ at_line 31 (do v <- load_name fr "parent" ;; setattr self "parent" v) ;;
  do_ at_line 32 (do v <- load_name fr "factor" ;; setattr self "factor" v) ;;
  do_ at_line 33 (do v <- load_name fr "projection_size" ;;
                  setattr self "projection_size" v) ;;
  do_ at_line 34 (do v <- load_name fr "activation" ;;
                  setattr self "activation" v) ;;
  init_check fr.

(** A fresh object with no attributes. *)
Definition allocate : M A obj_id :=
  fun st =>
    let o := fresh (dom (store st)) in
    (Ok o, with_store st (<[o := ∅]> (store st))).

(** The call [SequenceSplitter(parent, factor, ...)]. *)
Definition new (parent : TemporalStateful.t A) (factor : Z)
  (projection_size : option Z) (projection_activation : option (Callable A))
  : M A obj_id :=
  do self <- allocate ;;
  do_ __init__ self parent factor projection_size projection_activation ;;
  ret self.

(** Lines 44-50, the function under the decorator. *)
Definition temporal_states_func (self : obj_id) : M A (tf.Tensor A) :=
  do states <-
    at_line 45 (do p <- getattr self "parent" ;;
                lift (attr_temporal_states p)) ;;
  do states <-
    at_line 46
      (do size <- getattr self "projection_size" ;;
       if truthy size
       then at_line 47
              (do units <- getattr self "projection_size" ;;
               do activation <- getattr self "activation" ;;
               call_dense states units activation)
       else ret states) ;;
  at_line 50
    (do p <- getattr self "parent" ;;
     do t <- lift (attr_temporal_states p) ;;
     do f <- getattr self "factor" ;;
     do factor <- lift (as_int f) ;;
     split_by_factor t factor).

Definition temporal_states : obj_id -> M A (tf.Tensor A) :=
  tensor "temporal_states" temporal_states_func.

(** Lines 53-57, the function under the decorator. *)
Definition temporal_mask_func (self : obj_id) : M A (tf.Tensor A) :=
  do double_mask <-
    at_line 54
      (do f <- getattr self "factor" ;;
       do p <- getattr self "parent" ;;
       do mask <- lift (attr_temporal_mask p) ;;
       do expanded <- tf_op "ExpandDims" (tf.expand_dims mask 2) ;;
       do factor <- lift (as_int f) ;;
       tf_op "Pack" (tf.stack (py_list_repeat factor expanded) 2)) ;;
  at_line 57
    (do f <- getattr self "factor" ;;
     do factor <- lift (as_int f) ;;
     do split <- split_by_factor double_mask factor ;;
     tf_op "Squeeze" (tf.squeeze split 2)).

Definition temporal_mask : obj_id -> M A (tf.Tensor A) :=
  tensor "temporal_mask" temporal_mask_func.

(** Lines 59-60. *)
Definition feed_dict (self : obj_id) (dataset : Dataset) (train : bool)
  : M A FeedDict :=
  at_line 60 (ret ∅).

(** Lines 62-65. *)
Definition get_dependencies (self : obj_id) : M A (gset obj_id) :=
  do to_return <- at_line 63 (ret {[self]}) ;;
  do to_return <-
    at_line 64
      (do p <- getattr self "parent" ;;
       do deps <- lift (call_get_dependencies p) ;;
       ret (to_return ∪ deps)) ;;
  at_line 65 (ret to_return).

End Class.
End SequenceSplitter.

(** ** Instances and the states the statements talk about *)

Section Instances.
Context {A : Type}.

(** Lines 28-33 with their names resolved: what [__init__] has done when
    it reaches line 34. *)
Definition init_prefix (self : obj_id) (parent : TemporalStateful.t A)
  (factor : Z) (projection_size : option Z) : M A unit :=
  do_ ModelPart.__init__ self "sequence_split" VNone VNone VNone ;;
  do_ setattr self "parent" (VStateful parent) ;;
  do_ setattr self "factor" (VInt factor) ;;
  setattr self "projection_size" (of_optional VInt projection_size).

(** An instance carrying the four attributes that lines 31-34 assign. *)
Definition constructed (st : State A) (self : obj_id)
  (parent : TemporalStateful.t A) (factor : Z) (size activation : value A)
  : Prop :=
  attrs_of st self !! "parent" = Some (VStateful parent)
  /\ attrs_of st self !! "factor" = Some (VInt factor)
  /\ attrs_of st self !! "projection_size" = Some size
  /\ attrs_of st self !! "activation" = Some activation.

(** Neither derived tensor has been computed yet. *)
Definition not_accessed (st : State A) (self : obj_id) : Prop :=
  cache st !! (self, "temporal_states") = None
  /\ cache st !! (self, "temporal_mask") = None.

(** The parent produces states of shape [B, T, F], with [F] known when the
    graph is built, and a mask of shape [B, T]. *)
Definition parent_shape (parent : TemporalStateful.t A) (B T F : Z) : Prop :=
  tf.dims (TemporalStateful.temporal_states parent) = [B; T; F]
  /\ nth_error (tf.static_shape (TemporalStateful.temporal_states parent)) 2
     = Some (Some F)
  /\ tf.wf (TemporalStateful.temporal_states parent) = true
  /\ tf.dims (TemporalStateful.temporal_mask parent) = [B; T]
  /\ tf.wf (TemporalStateful.temporal_mask parent) = true.

(** When a projection is configured, the dense layer builds. *)
Definition projection_builds
  (tf_layers_dense : tf.Tensor A -> value A -> value A -> Graph
                     -> result (tf.Tensor A) * Graph)
  (st : State A) (parent : TemporalStateful.t A) (size activation : value A)
  : Prop :=
  truthy size = true ->
  is_ok (fst (tf_layers_dense (TemporalStateful.temporal_states parent)
                              size activation (graph st))) = true.

End Instances.

(** Concrete inputs. *)
Module Examples.

Definition empty_state : State Z := mkState ∅ ∅ (mkGraph [] []).

(** States of shape [2, 3, 4], mask [[1,1,0],[1,0,0]]. *)
Definition parent_2_3_4 : TemporalStateful.t Z :=
  TemporalStateful.mk 7%positive
    (tf.mkTensor [None; None; Some 4] [2; 3; 4] (map Z.of_nat (seq 0 24)))
    (tf.mkTensor [None; None] [2; 3] [1; 1; 0; 1; 0; 0])
    {[7%positive; 9%positive]}.

(** States of shape [1, 1, 5]: 5 is not divisible by 2. *)
Definition parent_1_1_5 : TemporalStateful.t Z :=
  TemporalStateful.mk 7%positive
    (tf.mkTensor [None; None; Some 5] [1; 1; 5] [10; 11; 12; 13; 14])
    (tf.mkTensor [None; None] [1; 1] [1])
    {[7%positive]}.

(** A dense layer that always builds: the projected tensor has its last
    dimension replaced by one, and a kernel joins the graph. *)
Definition dense_ok (inputs : tf.Tensor Z) (units activation : value Z)
  (g : Graph) : result (tf.Tensor Z) * Graph :=
  (Ok (tf.mkTensor [None; None; Some 1] [0; 0; 1] []),
   mkGraph (tensors g ++ ["dense/kernel"; "dense/BiasAdd"]) (parts g)).

(** An instance over [parent_2_3_4] with factor 2, set up attribute by
    attribute. *)
Definition instance (size activation : value Z) : State Z :=
  mkState
    {[ 1%positive :=
         {[ "parent" := VStateful parent_2_3_4;
            "factor" := VInt 2;
            "projection_size" := size;
            "activation" := activation ]} ]}
    ∅ (mkGraph [] [("sequence_split", 1%positive)]).

End Examples.

(** Further concrete inputs. *)
Module MoreExamples.

(** States of shape [2, 3, 4] whose feature dimension is not known when
    the graph is built. *)
Definition states_unknown_dim : tf.Tensor Z :=
  tf.mkTensor [None; None; None] [2; 3; 4] (map Z.of_nat (seq 0 24)).

(** A dense layer that cannot be built. *)
Definition dense_fails (inputs : tf.Tensor Z) (units activation : value Z)
  (g : Graph) : result (tf.Tensor Z) * Graph :=
  (raise_exn (InvalidArgument "Dense"), g).

(** An instance over [Examples.parent_2_3_4] with the given factor. *)
Definition instance_with_factor (factor : Z) (size activation : value Z)
  : State Z :=
  mkState
    {[ 1%positive :=
         {[ "parent" := VStateful Examples.parent_2_3_4;
            "factor" := VInt factor;
            "projection_size" := size;
            "activation" := activation ]} ]}
    ∅ (mkGraph [] [("sequence_split", 1%positive)]).

End MoreExamples.

(** * Properties *)

(** ** Lists: replication and blocks *)

Section ListFacts.
Context {X : Type}.

Lemma length_flat_map_repeat (k : nat) (l : list X) :
  length (flat_map (fun x => repeat x k) l) = (length l * k)%nat.
Proof.
  induction l as [|x l IH]; simpl; [reflexivity|].
  rewrite length_app, repeat_length, IH. reflexivity.
Qed.

Lemma nth_error_repeat_lt (x : X) (k j : nat) :
  (j < k)%nat -> nth_error (repeat x k) j = Some x.
Proof.
  revert j. induction k as [|k IH]; intros j Hj; [lia|].
  destruct j as [|j]; simpl; [reflexivity|]. apply IH. lia.
Qed.

(** Position [i*k + j] of the replicated list holds element [i]. *)
Lemma nth_error_flat_map_repeat (k : nat) (l : list X) (i j : nat) :
  (j < k)%nat ->
  nth_error (flat_map (fun x => repeat x k) l) (i * k + j) = nth_error l i.
Proof.
  intros Hj. revert i.
  induction l as [|x l IH]; intros i; simpl.
  - destruct i; simpl; [destruct j|]; try reflexivity.
    destruct (k + i * k + j)%nat; reflexivity.
  - destruct i as [|i]; simpl.
    + rewrite nth_error_app1 by (rewrite repeat_length; lia).
      apply nth_error_repeat_lt; assumption.
    + rewrite nth_error_app2 by (rewrite repeat_length; lia).
      rewrite repeat_length.
      replace (k + i * k + j - k)%nat with (i * k + j)%nat by lia.
      apply IH.
Qed.

Lemma flat_map_repeat_const {Y : Type} (f : Y -> list X) (e : Y) (k : nat) :
  flat_map f (repeat e k) = concat (repeat (f e) k).
Proof.
  induction k as [|k IH]; simpl; [reflexivity|]. rewrite IH. reflexivity.
Qed.

Lemma concat_repeat_singleton (x : X) (k : nat) :
  concat (repeat [x] k) = repeat x k.
Proof.
  induction k as [|k IH]; simpl; [reflexivity|]. rewrite IH. reflexivity.
Qed.

(** Taking the blocks of size one in order visits the elements in order. *)
Lemma flat_map_unit_blocks {Y : Type} (g : list X -> list Y) (d : list X) :
  flat_map (fun o => g (firstn 1 (skipn (o * 1) d))) (seq 0 (length d))
  = flat_map (fun x => g [x]) d.
Proof.
  induction d as [|x d IH]; [reflexivity|].
  cbn [length]. rewrite <- cons_seq, <- seq_shift. cbn [flat_map].
  f_equal. rewrite flat_map_concat_map, map_map, <- flat_map_concat_map.
  rewrite <- IH. apply flat_map_ext. intros o. reflexivity.
Qed.

End ListFacts.

(** ** Tensors: shapes and row-major data *)

Section TensorFacts.
Context {A : Type}.

(** Stacking [k] copies of a tensor along a new axis that is followed by
    dimensions of size one replicates each element [k] times in place. *)
Lemma stack_data_repeat (e : tf.Tensor A) (k : nat) :
  tf.stack_data (length (tf.data e)) 1 (repeat e k)
  = flat_map (fun x => repeat x k) (tf.data e).
Proof.
  unfold tf.stack_data, tf.chunk.
  rewrite (flat_map_ext _ (fun o => concat (repeat (firstn 1 (skipn (o * 1) (tf.data e))) k))).
  2:{ intros o.
      apply (flat_map_repeat_const
               (fun t => firstn 1 (skipn (o * 1) (tf.data t)))). }
  rewrite (flat_map_unit_blocks (fun c => concat (repeat c k))).
  apply flat_map_ext. intros x. apply concat_repeat_singleton.
Qed.

Lemma filter_holes_nonneg (req : list Z) :
  Forall (fun d => 0 <= d) req ->
  List.filter (fun d => negb (d =? -1)) req = req.
Proof.
  induction 1 as [|d req Hd _ IH]; [reflexivity|].
  cbn [List.filter]. destruct (Z.eqb_spec d (-1)) as [->|_]; [lia|].
  cbn. rewrite IH. reflexivity.
Qed.

(** A request without negative entries is taken as it is when it has the
    right number of elements. *)
Lemma resolve_shape_nonneg (n : Z) (req : list Z) :
  Forall (fun d => 0 <= d) req ->
  tf.numel req = n ->
  tf.resolve_shape n req = Some req.
Proof.
  intros Hreq Hn. unfold tf.resolve_shape.
  rewrite filter_holes_nonneg by assumption.
  replace (forallb (fun d => 0 <=? d) req) with true.
  2:{ symmetry. apply forallb_forall. intros d Hd.
      rewrite Forall_forall in Hreq. apply Z.leb_le, Hreq.
      apply list_elem_of_In; assumption. }
  rewrite Nat.sub_diag. cbn. rewrite (proj2 (Z.eqb_eq _ _) Hn). reflexivity.
Qed.

Lemma wf_rank3 (t : tf.Tensor A) (B T F : Z) :
  tf.wf t = true -> tf.dims t = [B; T; F] ->
  0 <= B /\ 0 <= T /\ 0 <= F /\ Z.of_nat (length (tf.data t)) = B * T * F.
Proof.
  unfold tf.wf. intros Hwf Hd. rewrite Hd in Hwf. cbn in Hwf.
  repeat (apply andb_prop in Hwf; destruct Hwf as [Hwf ?]).
  repeat match goal with
         | H : (_ <=? _) = true |- _ => apply Z.leb_le in H
         | H : (_ =? _) = true |- _ => apply Z.eqb_eq in H
         | H : _ && _ = true |- _ => apply andb_prop in H; destruct H
         end.
  repeat split; try assumption. lia.
Qed.

Lemma wf_rank2 (t : tf.Tensor A) (B T : Z) :
  tf.wf t = true -> tf.dims t = [B; T] ->
  0 <= B /\ 0 <= T /\ Z.of_nat (length (tf.data t)) = B * T
  /\ exists s0 s1, tf.static_shape t = [s0; s1].
Proof.
  unfold tf.wf. intros Hwf Hd. rewrite Hd in Hwf.
  destruct (tf.static_shape t) as [|s0 [|s1 [|s2 s]]]; cbn in Hwf;
    try (rewrite ?andb_false_r in Hwf; cbn in Hwf; discriminate).
  repeat match goal with
         | H : (_ <=? _) = true |- _ => apply Z.leb_le in H
         | H : (_ =? _) = true |- _ => apply Z.eqb_eq in H
         | H : _ && _ = true |- _ => apply andb_prop in H; destruct H
         end.
  repeat split; try assumption; [lia | eauto].
Qed.

(** Exact floor division: the invariant behind the reshape. *)
Lemma exact_division (F factor : Z) :
  0 < factor -> F mod factor = 0 -> factor * (F / factor) = F.
Proof.
  intros Hf Hm. symmetry. apply Z.div_exact; [lia | assumption].
Qed.

End TensorFacts.

(** ** Running the methods *)

Ltac run_step :=
  cbv beta iota;
  cbn [traced lift ret attr_temporal_states attr_temporal_mask
       call_get_dependencies as_int fst snd];
  cbv beta iota.

Section RunFacts.
Context {A : Type}.

Lemma getattr_run (st : State A) (o : obj_id) (name : string) (v : value A) :
  attrs_of st o !! name = Some v -> getattr o name st = (Ok v, st).
Proof. intros H. unfold getattr. rewrite H. reflexivity. Qed.

Lemma split_by_factor_state_indep (t : tf.Tensor A) (f : Z) (st st' : State A) :
  fst (split_by_factor t f st) = fst (split_by_factor t f st').
Proof.
  unfold split_by_factor, bind, at_line, shape_getitem, tf_op, lift, tf.shape.
  destruct (tf.dims t) as [|B [|T rest]];
    cbn -[get_shape_value dimension_floordiv tf.reshape tf.int32_mul];
    try reflexivity.
  destruct (get_shape_value t 2) as [d|[e tb]];
    cbn -[dimension_floordiv tf.reshape tf.int32_mul]; [|reflexivity].
  destruct (tf.int32_mul T f) as [m|[e tb]];
    cbn -[dimension_floordiv tf.reshape]; [|reflexivity].
  destruct (dimension_floordiv d f) as [q|[e tb]];
    cbn -[tf.reshape]; [|reflexivity].
  destruct (tf.reshape _ _) as [x|[e tb]]; reflexivity.
Qed.

Lemma int32_min_neg : tf.int32_min < 0.
Proof. reflexivity. Qed.

(** Within int32 nothing wraps. *)
Lemma wrap_int32_small (z : Z) :
  tf.int32_min <= z <= tf.int32_max -> tf.wrap_int32 z = z.
Proof.
  unfold tf.int32_min, tf.int32_max, tf.wrap_int32. intros H.
  rewrite Z.mod_small; lia.
Qed.

Lemma int32_mul_exact (x n : Z) :
  tf.int32_min <= n <= tf.int32_max ->
  tf.int32_min <= x * n <= tf.int32_max ->
  tf.int32_mul x n = Ok (x * n).
Proof.
  intros Hn Hx. unfold tf.int32_mul, tf.fits_int32.
  rewrite (proj2 (Z.leb_le _ _) (proj1 Hn)), (proj2 (Z.leb_le _ _) (proj2 Hn)).
  cbn [andb]. rewrite wrap_int32_small by assumption. reflexivity.
Qed.

Lemma split_by_factor_value (t : tf.Tensor A) (f : Z) (st : State A)
  (B T D : Z) (rest : list Z) :
  tf.dims t = B :: T :: rest ->
  nth_error (tf.static_shape t) 2 = Some (Some D) ->
  f <> 0 ->
  tf.int32_min <= f <= tf.int32_max ->
  tf.int32_min <= T * f <= tf.int32_max ->
  fst (split_by_factor t f st)
  = traced 73 (tf.reshape t [tf.DTensor B; tf.DTensor (T * f); tf.DInt (D / f)]).
Proof.
  intros Hd Hs Hf Hf32 Hm.
  unfold split_by_factor, bind, at_line, shape_getitem, tf_op, lift,
    get_shape_value, tf.shape.
  rewrite Hd, Hs. cbn -[tf.reshape Z.div Z.mul tf.int32_mul].
  rewrite (int32_mul_exact T f Hf32 Hm).
  cbn -[tf.reshape Z.div Z.mul].
  unfold py_floordiv. destruct (Z.eqb_spec f 0) as [?|_]; [contradiction|].
  cbn -[tf.reshape Z.div Z.mul].
  destruct (tf.reshape _ _) as [x|[e tb]]; reflexivity.
Qed.

Lemma tensor_miss (name : string) (func : obj_id -> M A (tf.Tensor A))
  (self : obj_id) (st : State A) :
  cache st !! (self, name) = None ->
  fst (tensor name func self st) = fst (func self st).
Proof.
  intros H. unfold tensor. rewrite H.
  destruct (func self st) as [[v|e] st']; reflexivity.
Qed.

Lemma tensor_idempotent (name : string) (func : obj_id -> M A (tf.Tensor A))
  (self : obj_id) (st : State A) (v : tf.Tensor A) :
  fst (tensor name func self st) = Ok v ->
  tensor name func self (snd (tensor name func self st))
  = (Ok v, snd (tensor name func self st)).
Proof.
  unfold tensor. destruct (cache st !! (self, name)) as [c|] eqn:Hc.
  - cbn. intros [= ->]. rewrite Hc. reflexivity.
  - destruct (func self st) as [[w|e] st']; cbn; [|discriminate].
    intros [= ->]. rewrite lookup_insert_eq. reflexivity.
Qed.
(** Any number of further accesses leaves the state where the first
    access left it. *)
Lemma tensor_repeated (name : string) (func : obj_id -> M A (tf.Tensor A))
  (self : obj_id) (st : State A) (v : tf.Tensor A) (n : nat) :
  fst (tensor name func self st) = Ok v ->
  Nat.iter n (fun s => snd (tensor name func self s))
           (snd (tensor name func self st))
  = snd (tensor name func self st).
Proof.
  intros H. induction n as [|n IH]; [reflexivity|].
  rewrite Nat.iter_succ, IH.
  rewrite (tensor_idempotent _ _ _ _ _ H). reflexivity.
Qed.

End RunFacts.

Section ClassFacts.
Context {A : Type}.
Variable tf_layers_dense :
  tf.Tensor A -> value A -> value A -> Graph -> result (tf.Tensor A) * Graph.

Lemma temporal_states_func_value (st : State A) (self : obj_id)
  (p : TemporalStateful.t A) (f : Z) (size act : value A) :
  constructed st self p f size act ->
  (truthy size = true ->
   is_ok (fst (tf_layers_dense (TemporalStateful.temporal_states p) size act
                               (graph st))) = true) ->
  fst (SequenceSplitter.temporal_states_func tf_layers_dense self st)
  = traced 50 (fst (split_by_factor (TemporalStateful.temporal_states p) f st)).
Proof.
  intros (Hp & Hf & Hs & Ha) Hd.
  unfold SequenceSplitter.temporal_states_func, bind, at_line.
  rewrite (getattr_run st self "parent" _ Hp). run_step.
  rewrite (getattr_run st self "projection_size" _ Hs). run_step.
  destruct (truthy size) eqn:Ht.
  - unfold bind, at_line.
    rewrite (getattr_run st self "projection_size" _ Hs). run_step.
    rewrite (getattr_run st self "activation" _ Ha). run_step.
    unfold SequenceSplitter.call_dense.
    specialize (Hd eq_refl).
    destruct (tf_layers_dense _ size act (graph st)) as [[proj|e] g];
      cbn in Hd; [|discriminate].
    run_step.
    rewrite (getattr_run (with_graph st g) self "parent" _ Hp). run_step.
    rewrite (getattr_run (with_graph st g) self "factor" _ Hf). run_step.
    destruct (split_by_factor _ f (with_graph st g)) as [r st'] eqn:E.
    cbn [fst]. f_equal.
    change r with (fst (r, st')). rewrite <- E.
    apply split_by_factor_state_indep.
  - unfold ret. run_step.
    rewrite (getattr_run st self "parent" _ Hp). run_step.
    rewrite (getattr_run st self "factor" _ Hf). run_step.
    destruct (split_by_factor _ f st) as [r st'] eqn:E. reflexivity.
Qed.
End ClassFacts.

Section MaskFacts.
Context {A : Type}.

Lemma forallb_same_dims_repeat (e : tf.Tensor A) (n : nat) :
  forallb (fun t => tf.same_dims (tf.dims t) (tf.dims e)) (repeat e n) = true.
Proof.
  induction n as [|n IH]; [reflexivity|]. cbn [repeat forallb].
  rewrite IH. unfold tf.same_dims. rewrite bool_decide_eq_true_2; reflexivity.
Qed.

Lemma stack_repeat (e : tf.Tensor A) (n : nat) (axis : Z) :
  tf.stack (repeat e (S n)) axis
  = match tf.new_axis (length (tf.dims e)) axis with
    | Some a =>
        Ok (tf.mkTensor
              (tf.insert_at a (Some (Z.of_nat (S n))) (tf.static_shape e))
              (tf.insert_at a (Z.of_nat (S n)) (tf.dims e))
              (tf.stack_data (Z.to_nat (tf.numel (firstn a (tf.dims e))))
                             (Z.to_nat (tf.numel (skipn a (tf.dims e))))
                             (repeat e (S n))))
    | None => raise_exn (InvalidArgument "Pack")
    end.
Proof.
  pose proof (forallb_same_dims_repeat e (S n)) as H.
  pose proof (repeat_length e (S n)) as L.
  unfold tf.stack. cbn [repeat] in *. rewrite H, L. reflexivity.
Qed.

(** Lines 54-56 on tensors: the mask with every entry repeated [factor]
    times along a new axis. *)
Lemma double_mask_value (mask : tf.Tensor A) (B T f : Z) (s0 s1 : option Z) :
  tf.static_shape mask = [s0; s1] ->
  tf.dims mask = [B; T] ->
  Z.of_nat (length (tf.data mask)) = B * T ->
  0 < f ->
  exists e,
    tf.expand_dims mask 2 = Ok e
    /\ tf.stack (py_list_repeat f e) 2
       = Ok (tf.mkTensor [s0; s1; Some f; Some 1] [B; T; f; 1]
               (flat_map (fun x => repeat x (Z.to_nat f)) (tf.data mask))).
Proof.
  intros Hs Hd Hlen Hf.
  exists (tf.mkTensor [s0; s1; Some 1] [B; T; 1] (tf.data mask)).
  split.
  { unfold tf.expand_dims. rewrite Hd, Hs. reflexivity. }
  unfold py_list_repeat.
  destruct (Z.to_nat f) as [|n] eqn:En; [lia|].
  rewrite stack_repeat.
  cbn [tf.dims tf.static_shape tf.data length].
  change (tf.new_axis 3 2) with (Some 2%nat). cbv beta iota.
  unfold tf.insert_at, tf.numel.
  cbn [firstn skipn app fold_right].
  replace (Z.of_nat (S n)) with f by lia.
  f_equal. f_equal.
  replace (Z.to_nat (B * (T * 1))) with (length (tf.data mask)) by lia.
  change (Z.to_nat (1 * 1)) with 1%nat.
  apply (stack_data_repeat (tf.mkTensor [s0; s1; Some 1] [B; T; 1] (tf.data mask))).
Qed.

End MaskFacts.

Section ReshapeFacts.
Context {A : Type}.

Lemma reshape_rank3 (t : tf.Tensor A) (B T D : Z) :
  0 <= B -> 0 <= T -> 0 <= D ->
  Z.of_nat (length (tf.data t)) = B * T * D ->
  tf.reshape t [tf.DTensor B; tf.DTensor T; tf.DInt D]
  = Ok (tf.mkTensor [None; None; Some D] [B; T; D] (tf.data t)).
Proof.
  intros HB HT HD Hlen. unfold tf.reshape.
  cbn [map tf.dim_value].
  rewrite resolve_shape_nonneg.
  - cbn [map tf.dim_static].
    destruct (Z.eqb_spec D (-1)); [lia|reflexivity].
  - repeat constructor; assumption.
  - unfold tf.numel. cbn [fold_right]. lia.
Qed.

Lemma temporal_mask_func_value (st : State A) (self : obj_id)
  (p : TemporalStateful.t A) (f : Z) (size act : value A) (B T : Z) :
  constructed st self p f size act ->
  tf.dims (TemporalStateful.temporal_mask p) = [B; T] ->
  tf.wf (TemporalStateful.temporal_mask p) = true ->
  0 < f ->
  f <= tf.int32_max ->
  T * f <= tf.int32_max ->
  fst (SequenceSplitter.temporal_mask_func self st)
  = Ok (tf.mkTensor [None; None] [B; T * f]
          (flat_map (fun x => repeat x (Z.to_nat f))
                    (tf.data (TemporalStateful.temporal_mask p)))).
Proof.
  intros (Hp & Hf & Hs & Ha) Hd Hwf Hpos Hf32 Hm32.
  destruct (wf_rank2 _ _ _ Hwf Hd) as (HB & HT & Hlen & s0 & s1 & Hst).
  pose proof int32_min_neg as Hmin.
  assert (Hfr : tf.int32_min <= f <= tf.int32_max) by lia.
  assert (Hmr : tf.int32_min <= T * f <= tf.int32_max) by nia.
  destruct (double_mask_value _ B T f s0 s1 Hst Hd Hlen Hpos)
    as (e & He & Hstack).
  unfold SequenceSplitter.temporal_mask_func, bind, at_line.
  rewrite (getattr_run st self "factor" _ Hf). run_step.
  rewrite (getattr_run st self "parent" _ Hp). run_step.
  unfold tf_op at 1. rewrite He. run_step.
  unfold tf_op at 1. rewrite Hstack. run_step.
  match goal with |- context [getattr self "factor" ?s] =>
    rewrite (getattr_run s self "factor" _ Hf) end.
  run_step.
  match goal with |- context [split_by_factor ?t f ?s] =>
    pose proof (split_by_factor_value t f s B T f [f; 1] eq_refl eq_refl
                  ltac:(lia) Hfr Hmr) as Hsplit;
    destruct (split_by_factor t f s) as [r st'] end.
  cbn [fst] in Hsplit. subst r.
  rewrite Z_div_same_full by lia.
  rewrite reshape_rank3; try lia.
  2:{ cbn [tf.data]. rewrite length_flat_map_repeat. nia. }
  run_step. unfold tf_op. cbn. reflexivity.
Qed.

End ReshapeFacts.

Section InitFacts.
Context {A : Type}.

Lemma attrs_of_setattr (st : State A) (o : obj_id) (name : string) (v : value A) :
  attrs_of (snd (setattr o name v st)) o = <[name := v]> (attrs_of st o).
Proof.
  unfold setattr, attrs_of at 1. cbn [snd store with_store].
  rewrite lookup_insert_eq. reflexivity.
Qed.

(** Whatever the arguments, [__init__] stops at line 34. *)
Lemma init_run (self : obj_id) (parent : TemporalStateful.t A) (factor : Z)
  (ps : option Z) (pa : option (Callable A)) (st : State A) :
  SequenceSplitter.__init__ self parent factor ps pa st
  = (Err (NameError "activation", [34%nat]),
     snd (init_prefix self parent factor ps st)).
Proof. destruct ps, pa; reflexivity. Qed.

Lemma new_run (parent : TemporalStateful.t A) (factor : Z)
  (ps : option Z) (pa : option (Callable A)) (st : State A) :
  SequenceSplitter.new parent factor ps pa st
  = (Err (NameError "activation", [34%nat]),
     snd (init_prefix (fresh (dom (store st))) parent factor ps
            (snd (SequenceSplitter.allocate st)))).
Proof.
  unfold SequenceSplitter.new, bind.
  cbn [SequenceSplitter.allocate]. unfold SequenceSplitter.allocate at 1.
  rewrite init_run. reflexivity.
Qed.

Lemma init_prefix_graph (self : obj_id) (parent : TemporalStateful.t A)
  (factor : Z) (ps : option Z) (st : State A) :
  graph (snd (init_prefix self parent factor ps st))
  = mkGraph (tensors (graph st))
            (parts (graph st) ++ [("sequence_split", self)]).
Proof. reflexivity. Qed.

Lemma init_prefix_cache (self : obj_id) (parent : TemporalStateful.t A)
  (factor : Z) (ps : option Z) (st : State A) :
  cache (snd (init_prefix self parent factor ps st)) = cache st.
Proof. reflexivity. Qed.

Lemma init_prefix_attrs (self : obj_id) (parent : TemporalStateful.t A)
  (factor : Z) (ps : option Z) (st : State A) :
  attrs_of (snd (init_prefix self parent factor ps st)) self
  = <["projection_size" := of_optional VInt ps]>
      (<["factor" := VInt factor]>
         (<["parent" := VStateful parent]> (attrs_of st self))).
Proof.
  unfold init_prefix, bind, ModelPart.__init__, setattr.
  cbv beta iota. unfold attrs_of.
  cbn [snd fst store with_store with_graph default].
  rewrite !lookup_insert_eq. reflexivity.
Qed.

(** Lines 36-41 taken alone: with a known feature dimension [F] and a
    non-zero factor, the check raises the [ValueError] exactly when
    [F % factor != 0]. *)
Lemma init_check_spec (self : obj_id) (parent : TemporalStateful.t A)
  (factor F : Z) (ps : option Z) (pa : option (Callable A)) (st : State A) :
  nth_error (tf.static_shape (TemporalStateful.temporal_states parent)) 2
  = Some (Some F) ->
  factor <> 0 ->
  SequenceSplitter.init_check
    (SequenceSplitter.init_frame self parent factor ps pa) st
  = (if F mod factor =? 0
     then Ok tt
     else Err (ValueError SequenceSplitter.divisibility_message
                          [Some F; Some factor], [38%nat]),
     st).
Proof.
  intros HF Hf.
  unfold SequenceSplitter.init_check, bind, at_line.
  cbn [SequenceSplitter.init_frame load_name resolve].
  change (load_name (SequenceSplitter.init_frame self parent factor ps pa) "parent" st)
    with (Ok (VStateful parent : value A), st).
  run_step. unfold get_shape_value. rewrite HF. run_step.
  change (load_name (SequenceSplitter.init_frame self parent factor ps pa) "factor" st)
    with (Ok (VInt factor : value A), st).
  run_step. cbn [dimension_mod]. unfold py_mod.
  destruct (Z.eqb_spec factor 0) as [?|_]; [contradiction|].
  run_step.
  destruct (F mod factor =? 0); reflexivity.
Qed.

End InitFacts.

(** ** Indexing *)

Section IndexFacts.
Context {A : Type}.

Lemma nth_error_in_range (l : list A) (i : nat) :
  (i < length l)%nat -> exists x, nth_error l i = Some x.
Proof.
  intros Hi. destruct (nth_error l i) as [x|] eqn:E; [eauto|].
  apply nth_error_None in E. lia.
Qed.

Lemma get_rank2 (t : tf.Tensor A) (B T b u : Z) :
  tf.dims t = [B; T] -> 0 <= b < B -> 0 <= u < T ->
  tf.get t [b; u] = nth_error (tf.data t) (Z.to_nat (b * T + u)).
Proof.
  intros Hd Hb Hu. unfold tf.get, tf.in_bounds, tf.flat_index. rewrite Hd.
  cbn [length combine forallb fst snd tf.flat_index_from Nat.eqb andb].
  replace (0 <=? b) with true by (symmetry; apply Z.leb_le; lia).
  replace (b <? B) with true by (symmetry; apply Z.ltb_lt; lia).
  replace (0 <=? u) with true by (symmetry; apply Z.leb_le; lia).
  replace (u <? T) with true by (symmetry; apply Z.ltb_lt; lia).
  cbn [andb]. replace ((0 * B + b) * T + u) with (b * T + u) by lia.
  reflexivity.
Qed.

Lemma get_rank3 (t : tf.Tensor A) (B T D b u c : Z) :
  tf.dims t = [B; T; D] -> 0 <= b < B -> 0 <= u < T -> 0 <= c < D ->
  tf.get t [b; u; c] = nth_error (tf.data t) (Z.to_nat ((b * T + u) * D + c)).
Proof.
  intros Hd Hb Hu Hc. unfold tf.get, tf.in_bounds, tf.flat_index. rewrite Hd.
  cbn [length combine forallb fst snd tf.flat_index_from Nat.eqb andb].
  replace (0 <=? b) with true by (symmetry; apply Z.leb_le; lia).
  replace (b <? B) with true by (symmetry; apply Z.ltb_lt; lia).
  replace (0 <=? u) with true by (symmetry; apply Z.leb_le; lia).
  replace (u <? T) with true by (symmetry; apply Z.ltb_lt; lia).
  replace (0 <=? c) with true by (symmetry; apply Z.leb_le; lia).
  replace (c <? D) with true by (symmetry; apply Z.ltb_lt; lia).
  cbn [andb].
  replace (((0 * B + b) * T + u) * D + c) with ((b * T + u) * D + c) by lia.
  reflexivity.
Qed.

End IndexFacts.

(** ** The derived tensors *)

Section Derived.
Context {A : Type}.
Variable Dataset : Type.
Variable tf_layers_dense :
  tf.Tensor A -> value A -> value A -> Graph -> result (tf.Tensor A) * Graph.

Lemma temporal_states_func_split (st : State A) (self : obj_id)
  (p : TemporalStateful.t A) (f : Z) (size act : value A) (B T F : Z) :
  constructed st self p f size act ->
  parent_shape p B T F ->
  0 < f -> F mod f = 0 ->
  f <= tf.int32_max -> T * f <= tf.int32_max ->
  projection_builds tf_layers_dense st p size act ->
  fst (SequenceSplitter.temporal_states_func tf_layers_dense self st)
  = Ok (tf.mkTensor [None; None; Some (F / f)] [B; T * f; F / f]
          (tf.data (TemporalStateful.temporal_states p))).
Proof.
  intros Hc (Hd & Hs & Hwf & _ & _) Hf Hm Hf32 Hm32 Hb.
  destruct (wf_rank3 _ _ _ _ Hwf Hd) as (HB & HT & HF & Hlen).
  pose proof int32_min_neg as Hmin.
  rewrite (temporal_states_func_value _ _ _ p f size act Hc Hb).
  rewrite (split_by_factor_value _ f st B T F [F] Hd Hs) by (lia || nia).
  pose proof (exact_division F f Hf Hm) as Hq.
  assert (0 <= F / f) by (apply Z.div_pos; lia).
  rewrite reshape_rank3 by (lia || (rewrite Hlen, <- Hq at 1; ring)).
  reflexivity.
Qed.

(** C3.  An instance holding the attributes of lines 31-34, with a parent
    whose states have shape [B, T, F] and whose mask has shape [B, T], a
    factor of at least one and [F % factor == 0], the factor and the new
    length [T*factor] fitting int32: the first access to
    [temporal_states] returns a tensor of shape [B, T*factor, F/factor]
    and the first access to [temporal_mask] one of shape [B, T*factor]. *)
Theorem split_shapes (st : State A) (self : obj_id)
  (p : TemporalStateful.t A) (f : Z) (size act : value A) (B T F : Z) :
  constructed st self p f size act ->
  not_accessed st self ->
  parent_shape p B T F ->
  0 < f -> F mod f = 0 ->
  f <= tf.int32_max -> T * f <= tf.int32_max ->
  projection_builds tf_layers_dense st p size act ->
  exists states mask,
    fst (SequenceSplitter.temporal_states tf_layers_dense self st) = Ok states
    /\ tf.dims states = [B; T * f; F / f]
    /\ fst (SequenceSplitter.temporal_mask self st) = Ok mask
    /\ tf.dims mask = [B; T * f].
Proof.
  intros Hc (Hn1 & Hn2) Hp Hf Hm Hf32 Hm32 Hb.
  pose proof (temporal_states_func_split _ _ _ _ _ _ _ _ _ Hc Hp Hf Hm
                Hf32 Hm32 Hb) as Hs.
  destruct Hp as (_ & _ & _ & Hmd & Hmwf).
  pose proof (temporal_mask_func_value _ _ _ _ _ _ _ _ Hc Hmd Hmwf Hf
                Hf32 Hm32) as Hk.
  eexists _, _.
  unfold SequenceSplitter.temporal_states, SequenceSplitter.temporal_mask.
  rewrite (tensor_miss _ _ _ _ Hn1), (tensor_miss _ _ _ _ Hn2), Hs, Hk.
  repeat split; reflexivity.
Qed.

(** C4.  For such an instance (factor and new length fitting int32),
    every batch index [b], original timestep
    [t] and sub-position [j < factor]: position [t*factor + j] of the
    output mask holds the parent mask value at [(b, t)], and the same
    position of the output states holds slice [j] of the parent state
    vector at [(b, t)]; the [factor] sub-positions of a timestep are
    contiguous, in both tensors alike. *)
Theorem mask_replicated (st : State A) (self : obj_id)
  (p : TemporalStateful.t A) (f : Z) (size act : value A) (B T F : Z) :
  constructed st self p f size act ->
  not_accessed st self ->
  parent_shape p B T F ->
  0 < f -> F mod f = 0 ->
  f <= tf.int32_max -> T * f <= tf.int32_max ->
  projection_builds tf_layers_dense st p size act ->
  exists states mask,
    fst (SequenceSplitter.temporal_states tf_layers_dense self st) = Ok states
    /\ fst (SequenceSplitter.temporal_mask self st) = Ok mask
    /\ forall b t j, 0 <= b < B -> 0 <= t < T -> 0 <= j < f ->
         (exists x, tf.get (TemporalStateful.temporal_mask p) [b; t] = Some x
                    /\ tf.get mask [b; t * f + j] = Some x)
         /\ (forall c, 0 <= c < F / f ->
               exists y,
                 tf.get (TemporalStateful.temporal_states p)
                        [b; t; j * (F / f) + c] = Some y
                 /\ tf.get states [b; t * f + j; c] = Some y).
Proof.
  intros Hc (Hn1 & Hn2) Hp Hf Hm Hf32 Hm32 Hb.
  pose proof (temporal_states_func_split _ _ _ _ _ _ _ _ _ Hc Hp Hf Hm
                Hf32 Hm32 Hb) as Hs.
  destruct Hp as (Hsd & _ & Hswf & Hmd & Hmwf).
  pose proof (temporal_mask_func_value _ _ _ _ _ _ _ _ Hc Hmd Hmwf Hf
                Hf32 Hm32) as Hk.
  destruct (wf_rank3 _ _ _ _ Hswf Hsd) as (HB & HT & HF & Hslen).
  destruct (wf_rank2 _ _ _ Hmwf Hmd) as (_ & _ & Hmlen & _).
  pose proof (exact_division F f Hf Hm) as Hq.
  eexists _, _.
  unfold SequenceSplitter.temporal_states, SequenceSplitter.temporal_mask.
  rewrite (tensor_miss _ _ _ _ Hn1), (tensor_miss _ _ _ _ Hn2), Hs, Hk.
  split; [reflexivity|]. split; [reflexivity|].
  intros b t j Hb' Ht Hj. split.
  - destruct (nth_error_in_range (tf.data (TemporalStateful.temporal_mask p))
                (Z.to_nat (b * T + t)))
      as [x Hx]; [nia|].
    exists x. split.
    + rewrite (get_rank2 _ B T) by (assumption || lia). exact Hx.
    + rewrite (get_rank2 _ B (T * f)) by (reflexivity || nia).
      cbn [tf.data].
      replace (Z.to_nat (b * (T * f) + (t * f + j)))
        with (Z.to_nat (b * T + t) * Z.to_nat f + Z.to_nat j)%nat by nia.
      rewrite nth_error_flat_map_repeat by lia. exact Hx.
  - intros c Hc'.
    set (q := F / f) in *.
    assert (Hw : 0 <= j * q + c < F) by nia.
    assert (Hu : 0 <= b * T + t < B * T) by nia.
    assert (Hi : (b * (T * f) + (t * f + j)) * q + c
                 = (b * T + t) * F + (j * q + c))
      by (rewrite <- Hq; ring).
    destruct (nth_error_in_range (tf.data (TemporalStateful.temporal_states p))
                (Z.to_nat ((b * T + t) * F + (j * q + c))))
      as [y Hy]; [nia|].
    exists y. split.
    + rewrite (get_rank3 _ B T F) by (assumption || lia). exact Hy.
    + rewrite (get_rank3 _ B (T * f) q) by (reflexivity || nia).
      cbn [tf.data]. rewrite Hi. exact Hy.
Qed.

(** C5.  With [projection_size] set (and the dense layer building), what
    [temporal_states] returns is [split_by_factor] of the parent's own,
    unprojected states; it is the same as what any other projection
    setting - none at all, another size, another activation, another
    dense layer - returns over the same parent and factor. *)
Theorem projection_is_dead_code
  (dense' : tf.Tensor A -> value A -> value A -> Graph
            -> result (tf.Tensor A) * Graph)
  (st st' : State A) (self self' : obj_id) (p : TemporalStateful.t A) (f : Z)
  (size act size' act' : value A) :
  constructed st self p f size act ->
  cache st !! (self, "temporal_states") = None ->
  truthy size = true ->
  projection_builds tf_layers_dense st p size act ->
  constructed st' self' p f size' act' ->
  cache st' !! (self', "temporal_states") = None ->
  projection_builds dense' st' p size' act' ->
  fst (SequenceSplitter.temporal_states tf_layers_dense self st)
  = traced 50 (fst (split_by_factor (TemporalStateful.temporal_states p) f st))
  /\ fst (SequenceSplitter.temporal_states tf_layers_dense self st)
     = fst (SequenceSplitter.temporal_states dense' self' st').
Proof.
  intros Hc Hn Ht Hd Hc' Hn' Hd'.
  unfold SequenceSplitter.temporal_states.
  rewrite (tensor_miss _ _ _ _ Hn), (tensor_miss _ _ _ _ Hn').
  rewrite (temporal_states_func_value tf_layers_dense _ _ p f size act Hc Hd).
  rewrite (temporal_states_func_value dense' _ _ p f size' act' Hc' Hd').
  split; [reflexivity|].
  f_equal. apply split_by_factor_state_indep.
Qed.

(** C7.  For an instance holding the attributes of lines 31-34,
    [get_dependencies()] returns exactly the set made of the splitter
    itself and of what the parent's [get_dependencies()] returns, and
    changes nothing. *)
Theorem get_dependencies_spec (st : State A) (self : obj_id)
  (p : TemporalStateful.t A) (f : Z) (size act : value A) :
  constructed st self p f size act ->
  SequenceSplitter.get_dependencies self st
  = (Ok ({[self]} ∪ TemporalStateful.get_dependencies p), st).
Proof.
  intros (Hp & _).
  unfold SequenceSplitter.get_dependencies, bind, at_line. run_step.
  rewrite (getattr_run st self "parent" _ Hp). run_step. reflexivity.
Qed.

(** C8.  [feed_dict(dataset, train)] returns the empty mapping for every
    instance, every data set and both values of the flag, and changes
    nothing. *)
Theorem feed_dict_empty (st : State A) (self : obj_id) (dataset : Dataset)
  (train : bool) :
  SequenceSplitter.feed_dict Dataset self dataset train st = (Ok ∅, st).
Proof. reflexivity. Qed.

(** C10.  When an access to [temporal_states] (to [temporal_mask]) has
    returned a tensor, every later access - after any number of accesses
    in between - returns that same tensor and leaves the state, the graph
    with it, as the first access left it: nothing is computed again. *)
Theorem derived_tensors_memoized (st : State A) (self : obj_id)
  (states mask : tf.Tensor A) (n : nat) :
  fst (SequenceSplitter.temporal_states tf_layers_dense self st) = Ok states ->
  fst (SequenceSplitter.temporal_mask self st) = Ok mask ->
  (let st1 := snd (SequenceSplitter.temporal_states tf_layers_dense self st) in
   let stn :=
     Nat.iter n (fun s => snd (SequenceSplitter.temporal_states
                                 tf_layers_dense self s)) st1 in
   SequenceSplitter.temporal_states tf_layers_dense self stn = (Ok states, st1))
  /\ (let st1 := snd (SequenceSplitter.temporal_mask self st) in
      let stn :=
        Nat.iter n (fun s => snd (SequenceSplitter.temporal_mask self s)) st1 in
      SequenceSplitter.temporal_mask self stn = (Ok mask, st1)).
Proof.
  intros Hs Hm. unfold SequenceSplitter.temporal_states,
    SequenceSplitter.temporal_mask in *.
  split; cbv zeta.
  - rewrite (tensor_repeated _ _ _ _ _ n Hs). apply tensor_idempotent, Hs.
  - rewrite (tensor_repeated _ _ _ _ _ n Hm). apply tensor_idempotent, Hm.
Qed.

End Derived.

(** ** Construction *)

Section Construction.
Context {A : Type}.

(** C2.  Whatever the parent, the factor and the two optional arguments:
    no name [activation] is in scope at line 34, [__init__] raises
    [NameError] there having done no more than lines 26-33, so the check
    of lines 36-41 is never run, and the call of the class never returns
    an instance. *)
Theorem init_always_raises_unbound_name (self : obj_id)
  (parent : TemporalStateful.t A) (factor : Z) (ps : option Z)
  (pa : option (Callable A)) (st : State A) :
  resolve (SequenceSplitter.init_frame self parent factor ps pa) "activation"
  = None
  /\ SequenceSplitter.__init__ self parent factor ps pa st
     = (Err (NameError "activation", [34%nat]),
        snd (init_prefix self parent factor ps st))
  /\ fst (SequenceSplitter.new parent factor ps pa st)
     = Err (NameError "activation", [34%nat]).
Proof.
  split; [reflexivity|]. split; [apply init_run|].
  rewrite new_run. reflexivity.
Qed.

(** C6, as amended.  When construction fails, no tensor has joined the
    graph and no derived tensor is cached, but what ran before the failing
    statement stays: the part is registered under its name and the object
    carries the attributes assigned so far. *)
Theorem failed_construction_keeps_registration
  (parent : TemporalStateful.t A) (factor : Z) (ps : option Z)
  (pa : option (Callable A)) (st : State A) :
  is_ok (fst (SequenceSplitter.new parent factor ps pa st)) = false ->
  let st' := snd (SequenceSplitter.new parent factor ps pa st) in
  let self : obj_id := fresh (dom (store st)) in
  tensors (graph st') = tensors (graph st)
  /\ cache st' = cache st
  /\ parts (graph st') = (parts (graph st) ++ [("sequence_split", self)])%list
  /\ attrs_of st' self !! "parent" = Some (VStateful parent)
  /\ attrs_of st' self !! "factor" = Some (VInt factor)
  /\ attrs_of st' self !! "projection_size" = Some (of_optional VInt ps).
Proof.
  intros _. cbv zeta. rewrite new_run. cbn [snd].
  rewrite init_prefix_graph, init_prefix_cache, init_prefix_attrs.
  repeat split.
  - rewrite lookup_insert_ne, lookup_insert_ne, lookup_insert_eq by discriminate.
    reflexivity.
  - rewrite lookup_insert_ne, lookup_insert_eq by discriminate. reflexivity.
  - rewrite lookup_insert_eq. reflexivity.
Qed.

End Construction.

(** C1.  A parent with feature dimension 5 and factor 2: the call of the
    class raises [NameError] from line 34, not the [ValueError] of the
    divisibility check - which, run on its own from line 36, does raise
    that [ValueError] for these arguments. *)
Theorem indivisible_parent_raises_name_error :
  fst (SequenceSplitter.new Examples.parent_1_1_5 2 None None
                            Examples.empty_state)
  = Err (NameError "activation", [34%nat])
  /\ fst (SequenceSplitter.init_check
            (SequenceSplitter.init_frame 1%positive Examples.parent_1_1_5 2
                                         None None)
            Examples.empty_state)
     = Err (ValueError SequenceSplitter.divisibility_message
                       [Some 5; Some 2], [38%nat]).
Proof.
  split.
  - rewrite new_run. reflexivity.
  - rewrite (init_check_spec _ _ 2 5) by (reflexivity || lia). reflexivity.
Qed.

(** C6, as stated, fails: the construction over a parent with feature
    dimension 5 and factor 2 fails, and afterwards the graph is not the
    one before - the name is registered - and the new object carries the
    attributes of lines 31-33. *)
Lemma failed_construction_not_atomic :
  let r := SequenceSplitter.new Examples.parent_1_1_5 2 None None
                                Examples.empty_state in
  is_ok (fst r) = false
  /\ graph (snd r) <> graph Examples.empty_state
  /\ parts (graph (snd r)) = [("sequence_split", 1%positive)]
  /\ attrs_of (snd r) 1%positive !! "factor" = Some (VInt 2)
  /\ store (snd r) <> store Examples.empty_state.
Proof.
  cbv zeta. rewrite new_run. cbn [fst snd is_ok].
  split; [reflexivity|]. split; [discriminate|]. split; [reflexivity|].
  split; [reflexivity|].
  intros H.
  apply (f_equal (fun s : gmap obj_id (gmap string (value Z)) =>
                    is_Some (s !! 1%positive))) in H.
  assert (Hs : is_Some (store Examples.empty_state !! 1%positive)).
  { rewrite <- H. eexists. reflexivity. }
  destruct Hs as [x Hx]. discriminate Hx.
Qed.

(** C9.  For positive [T], [F] and [factor] with [F % factor == 0], the
    floor division of [split_by_factor] is exact and a batch row keeps its
    number of elements: [T*F = (T*factor) * (F // factor)]. *)
Theorem element_count_preserved (T F factor : Z) :
  0 < T -> 0 < F -> 0 < factor -> F mod factor = 0 ->
  exists q, dimension_floordiv (Some F) factor = Ok q
            /\ q = F / factor
            /\ T * F = (T * factor) * q
            /\ tf.numel [T; F] = tf.numel [T * factor; q].
Proof.
  intros HT HF Hf Hm. exists (F / factor).
  pose proof (exact_division F factor Hf Hm) as Hq.
  unfold dimension_floordiv, py_floordiv, tf.numel.
  destruct (Z.eqb_spec factor 0); [lia|].
  cbn [fold_right]. repeat split; rewrite <- Hq at 1; ring.
Qed.

(** ** The statements at concrete inputs *)

Lemma split_shapes_witness :
  constructed (Examples.instance (VInt 8) VNone) 1%positive
              Examples.parent_2_3_4 2 (VInt 8) VNone
  /\ parent_shape Examples.parent_2_3_4 2 3 4
  /\ exists states mask,
       fst (SequenceSplitter.temporal_states Examples.dense_ok 1%positive
              (Examples.instance (VInt 8) VNone)) = Ok states
       /\ tf.dims states = [2; 3 * 2; 4 / 2]
       /\ fst (SequenceSplitter.temporal_mask 1%positive
                 (Examples.instance (VInt 8) VNone)) = Ok mask
       /\ tf.dims mask = [2; 3 * 2].
Proof.
  assert (Hc : constructed (Examples.instance (VInt 8) VNone) 1%positive
                           Examples.parent_2_3_4 2 (VInt 8) VNone)
    by (repeat split; reflexivity).
  assert (Hp : parent_shape Examples.parent_2_3_4 2 3 4)
    by (repeat split; reflexivity).
  split; [exact Hc|]. split; [exact Hp|].
  apply (split_shapes Examples.dense_ok _ _ _ _ _ _ _ _ _ Hc);
    [split; reflexivity | exact Hp | lia | reflexivity
    | unfold tf.int32_max; lia | unfold tf.int32_max; lia
    | intros _; reflexivity].
Defined.

Lemma mask_replicated_witness :
  constructed (Examples.instance VNone VNone) 1%positive
              Examples.parent_2_3_4 2 VNone VNone
  /\ exists states mask,
       fst (SequenceSplitter.temporal_states Examples.dense_ok 1%positive
              (Examples.instance VNone VNone)) = Ok states
       /\ fst (SequenceSplitter.temporal_mask 1%positive
                 (Examples.instance VNone VNone)) = Ok mask
       /\ forall b t j, 0 <= b < 2 -> 0 <= t < 3 -> 0 <= j < 2 ->
            (exists x,
               tf.get (TemporalStateful.temporal_mask Examples.parent_2_3_4)
                      [b; t] = Some x
               /\ tf.get mask [b; t * 2 + j] = Some x)
            /\ (forall c, 0 <= c < 4 / 2 ->
                  exists y,
                    tf.get (TemporalStateful.temporal_states
                              Examples.parent_2_3_4)
                           [b; t; j * (4 / 2) + c] = Some y
                    /\ tf.get states [b; t * 2 + j; c] = Some y).
Proof.
  assert (Hc : constructed (Examples.instance VNone VNone) 1%positive
                           Examples.parent_2_3_4 2 VNone VNone)
    by (repeat split; reflexivity).
  split; [exact Hc|].
  apply (mask_replicated Examples.dense_ok _ _ _ _ _ _ _ _ _ Hc);
    [split; reflexivity | repeat split; reflexivity | lia | reflexivity
    | unfold tf.int32_max; lia | unfold tf.int32_max; lia
    | intros H; discriminate H].
Defined.

Lemma projection_is_dead_code_witness :
  truthy (VInt 8 : value Z) = true
  /\ fst (SequenceSplitter.temporal_states Examples.dense_ok 1%positive
            (Examples.instance (VInt 8) VNone))
     = traced 50
         (fst (split_by_factor
                 (TemporalStateful.temporal_states Examples.parent_2_3_4) 2
                 (Examples.instance (VInt 8) VNone)))
  /\ fst (SequenceSplitter.temporal_states Examples.dense_ok 1%positive
            (Examples.instance (VInt 8) VNone))
     = fst (SequenceSplitter.temporal_states Examples.dense_ok 1%positive
              (Examples.instance VNone VNone)).
Proof.
  split; [reflexivity|].
  apply (projection_is_dead_code Examples.dense_ok Examples.dense_ok
           (Examples.instance (VInt 8) VNone) (Examples.instance VNone VNone)
           1%positive 1%positive Examples.parent_2_3_4 2
           (VInt 8) VNone VNone VNone);
    [repeat split; reflexivity | reflexivity | reflexivity
    | intros _; reflexivity
    | repeat split; reflexivity | reflexivity
    | intros H; discriminate H].
Defined.

Lemma failed_construction_keeps_registration_witness :
  is_ok (fst (SequenceSplitter.new Examples.parent_1_1_5 2 None None
                Examples.empty_state)) = false
  /\ parts (graph (snd (SequenceSplitter.new Examples.parent_1_1_5 2 None None
                          Examples.empty_state)))
     = [("sequence_split", 1%positive)]
  /\ tensors (graph (snd (SequenceSplitter.new Examples.parent_1_1_5 2 None
                            None Examples.empty_state))) = [].
Proof.
  assert (Hf : is_ok (fst (SequenceSplitter.new Examples.parent_1_1_5 2 None
                             None Examples.empty_state)) = false)
    by reflexivity.
  split; [exact Hf|].
  destruct (failed_construction_keeps_registration
              Examples.parent_1_1_5 2 None None Examples.empty_state Hf)
    as (Ht & _ & Hp & _).
  split; [exact Hp | exact Ht].
Defined.

Lemma get_dependencies_spec_witness :
  constructed (Examples.instance VNone VNone) 1%positive
              Examples.parent_2_3_4 2 VNone VNone
  /\ SequenceSplitter.get_dependencies 1%positive
       (Examples.instance VNone VNone)
     = (Ok ({[1%positive]}
            ∪ TemporalStateful.get_dependencies Examples.parent_2_3_4),
        Examples.instance VNone VNone).
Proof.
  assert (Hc : constructed (Examples.instance VNone VNone) 1%positive
                           Examples.parent_2_3_4 2 VNone VNone)
    by (repeat split; reflexivity).
  split; [exact Hc|].
  apply (get_dependencies_spec _ _ _ _ _ _ Hc).
Defined.

Lemma element_count_preserved_witness :
  4 mod 2 = 0
  /\ exists q, dimension_floordiv (Some 4) 2 = Ok q
               /\ q = 4 / 2
               /\ 3 * 4 = (3 * 2) * q
               /\ tf.numel [3; 4] = tf.numel [3 * 2; q].
Proof.
  split; [reflexivity|].
  apply (element_count_preserved 3 4 2); [lia | lia | lia | reflexivity].
Defined.

Lemma derived_tensors_memoized_witness :
  exists states mask,
    fst (SequenceSplitter.temporal_states Examples.dense_ok 1%positive
           (Examples.instance (VInt 8) VNone)) = Ok states
    /\ fst (SequenceSplitter.temporal_mask 1%positive
              (Examples.instance (VInt 8) VNone)) = Ok mask
    /\ (let st1 := snd (SequenceSplitter.temporal_states Examples.dense_ok
                          1%positive (Examples.instance (VInt 8) VNone)) in
        let stn :=
          Nat.iter 3 (fun s => snd (SequenceSplitter.temporal_states
                                      Examples.dense_ok 1%positive s)) st1 in
        SequenceSplitter.temporal_states Examples.dense_ok 1%positive stn
        = (Ok states, st1))
    /\ (let st1 := snd (SequenceSplitter.temporal_mask 1%positive
                          (Examples.instance (VInt 8) VNone)) in
        let stn :=
          Nat.iter 3 (fun s => snd (SequenceSplitter.temporal_mask
                                      1%positive s)) st1 in
        SequenceSplitter.temporal_mask 1%positive stn = (Ok mask, st1)).
Proof.
  eexists _, _.
  assert (Hs : fst (SequenceSplitter.temporal_states Examples.dense_ok
                      1%positive (Examples.instance (VInt 8) VNone))
               = Ok (tf.mkTensor [None; None; Some 2] [2; 6; 2]
                       (map Z.of_nat (seq 0 24))))
    by reflexivity.
  assert (Hm : fst (SequenceSplitter.temporal_mask 1%positive
                      (Examples.instance (VInt 8) VNone))
               = Ok (tf.mkTensor [None; None] [2; 6]
                       [1; 1; 1; 1; 0; 0; 1; 1; 0; 0; 0; 0]))
    by reflexivity.
  split; [exact Hs|]. split; [exact Hm|].
  apply (derived_tensors_memoized Examples.dense_ok _ _ _ _ 3 Hs Hm).
Defined.

(** * Further properties *)

(** ** More on [split_by_factor] *)

Section SplitFacts.
Context {A : Type}.

(** [split_by_factor] as far as the product of line 73, and from there. *)
Lemma split_by_factor_run (t : tf.Tensor A) (f : Z) (st : State A)
  (B T : Z) (rest : list Z) (d : option Z) :
  tf.dims t = B :: T :: rest ->
  nth_error (tf.static_shape t) 2 = Some d ->
  split_by_factor t f st
  = let st3 := add_tensor "StridedSlice"
                 (add_tensor "StridedSlice" (add_tensor "Shape" st)) in
    match tf.int32_mul T f with
    | Ok m =>
        let st4 := add_tensor "Mul" st3 in
        match dimension_floordiv d f with
        | Ok q =>
            match tf.reshape t [tf.DTensor B; tf.DTensor m; tf.DInt q] with
            | Ok x => (Ok x, add_tensor "Reshape" st4)
            | Err e => (traced 73 (Err e), st4)
            end
        | Err e => (traced 73 (Err e), st4)
        end
    | Err e => (traced 73 (Err e), st3)
    end.
Proof.
  intros Hd Hs.
  unfold split_by_factor, bind, at_line, shape_getitem, tf_op, lift,
    get_shape_value, tf.shape.
  rewrite Hd, Hs.
  cbn -[tf.reshape Z.div Z.mul dimension_floordiv tf.int32_mul].
  destruct (tf.int32_mul T f) as [m|[e tb]];
    cbn -[tf.reshape Z.div Z.mul dimension_floordiv]; [|reflexivity].
  destruct (dimension_floordiv d f) as [q|[e tb]];
    cbn -[tf.reshape Z.div Z.mul]; [|reflexivity].
  destruct (tf.reshape _ _) as [x|[e tb]]; reflexivity.
Qed.

Lemma resolve_shape_length (n : Z) (req d : list Z) :
  tf.resolve_shape n req = Some d -> length d = length req.
Proof.
  unfold tf.resolve_shape.
  destruct (negb _); [discriminate|].
  destruct (length req - length _)%nat as [|[|k]]; [| |discriminate].
  - destruct (_ =? _); [|discriminate]. intros [= <-]. reflexivity.
  - destruct (_ || _); [discriminate|]. intros [= <-].
    apply length_map.
Qed.

Lemma reshape_keeps_data (t out : tf.Tensor A) (req : list tf.dim_arg) :
  tf.reshape t req = Ok out ->
  tf.data out = tf.data t /\ length (tf.dims out) = length req.
Proof.
  unfold tf.reshape.
  destruct (tf.resolve_shape _ _) as [d|] eqn:E; [|discriminate].
  intros [= <-]. cbn. split; [reflexivity|].
  rewrite (resolve_shape_length _ _ _ E). apply length_map.
Qed.

(** [split_by_factor] only ever adds tensors to the graph. *)
Lemma split_by_factor_frame (t : tf.Tensor A) (f : Z) (st : State A) :
  store (snd (split_by_factor t f st)) = store st
  /\ cache (snd (split_by_factor t f st)) = cache st
  /\ parts (graph (snd (split_by_factor t f st))) = parts (graph st)
  /\ exists new, tensors (graph (snd (split_by_factor t f st)))
                 = (tensors (graph st) ++ new)%list.
Proof.
  unfold split_by_factor, bind, at_line, shape_getitem, tf_op, lift, tf.shape.
  destruct (tf.dims t) as [|B [|T rest]];
    cbn -[get_shape_value dimension_floordiv tf.reshape tf.int32_mul].
  1,2: repeat split; eexists; rewrite <- ?app_assoc; reflexivity.
  destruct (get_shape_value t 2) as [d|[e tb]];
    cbn -[dimension_floordiv tf.reshape tf.int32_mul].
  2: repeat split; eexists; rewrite <- ?app_assoc; reflexivity.
  destruct (tf.int32_mul T f) as [m|[e tb]];
    cbn -[dimension_floordiv tf.reshape].
  2: repeat split; eexists; rewrite <- ?app_assoc; reflexivity.
  destruct (dimension_floordiv d f) as [q|[e tb]]; cbn -[tf.reshape].
  2: repeat split; eexists; rewrite <- ?app_assoc; reflexivity.
  destruct (tf.reshape _ _) as [x|[e tb]]; cbn;
    repeat split; eexists; rewrite <- ?app_assoc; reflexivity.
Qed.

Lemma split_by_factor_result (t out : tf.Tensor A) (f : Z) (st : State A) :
  fst (split_by_factor t f st) = Ok out ->
  tf.data out = tf.data t /\ length (tf.dims out) = 3%nat.
Proof.
  unfold split_by_factor, bind, at_line, shape_getitem, tf_op, lift, tf.shape.
  destruct (tf.dims t) as [|B [|T rest]];
    cbn -[get_shape_value dimension_floordiv tf.reshape tf.int32_mul];
    try discriminate.
  destruct (get_shape_value t 2) as [d|[e tb]];
    cbn -[dimension_floordiv tf.reshape tf.int32_mul]; [|discriminate].
  destruct (tf.int32_mul T f) as [m|[e tb]];
    cbn -[dimension_floordiv tf.reshape]; [|discriminate].
  destruct (dimension_floordiv d f) as [q|[e tb]]; cbn -[tf.reshape];
    [|discriminate].
  destruct (tf.reshape _ _) as [x|[e tb]] eqn:E; cbn; [|discriminate].
  intros [= <-]. apply (reshape_keeps_data _ _ _ E).
Qed.

End SplitFacts.

Section SplitOutcomes.
Context {A : Type}.

Lemma wf_rank3_int32 (t : tf.Tensor A) (B T F : Z) :
  tf.wf t = true -> tf.dims t = [B; T; F] ->
  B <= tf.int32_max /\ T <= tf.int32_max /\ F <= tf.int32_max.
Proof.
  unfold tf.wf. intros Hwf Hd. rewrite Hd in Hwf. cbn [forallb] in Hwf.
  repeat match goal with
         | H : _ && _ = true |- _ => apply andb_prop in H; destruct H
         | H : (_ <=? _) = true |- _ => apply Z.leb_le in H
         end.
  repeat split; assumption.
Qed.

Lemma split_by_factor_ok (t : tf.Tensor A) (f : Z) (st : State A) (B T F : Z) :
  tf.dims t = [B; T; F] ->
  nth_error (tf.static_shape t) 2 = Some (Some F) ->
  tf.wf t = true ->
  0 < f -> F mod f = 0 ->
  f <= tf.int32_max -> T * f <= tf.int32_max ->
  fst (split_by_factor t f st)
  = Ok (tf.mkTensor [None; None; Some (F / f)] [B; T * f; F / f] (tf.data t)).
Proof.
  intros Hd Hs Hwf Hf Hm Hf32 Hm32.
  destruct (wf_rank3 _ _ _ _ Hwf Hd) as (HB & HT & HF & Hlen).
  pose proof int32_min_neg as Hmin.
  rewrite (split_by_factor_value _ f st B T F [F] Hd Hs) by (lia || nia).
  pose proof (exact_division F f Hf Hm) as Hq.
  assert (0 <= F / f) by (apply Z.div_pos; lia).
  rewrite reshape_rank3 by (lia || (rewrite Hlen, <- Hq at 1; ring)).
  reflexivity.
Qed.

(** X5.  A factor of zero: [state_dim // factor] raises
    [ZeroDivisionError] at line 73, after the shape, its two slices and
    the product [max_time * factor] have joined the graph. *)
Theorem split_by_factor_zero_factor (t : tf.Tensor A) (st : State A)
  (B T F : Z) (rest : list Z) :
  tf.dims t = B :: T :: rest ->
  nth_error (tf.static_shape t) 2 = Some (Some F) ->
  fst (split_by_factor t 0 st) = Err (ZeroDivisionError, [73%nat])
  /\ tensors (graph (snd (split_by_factor t 0 st)))
     = (tensors (graph st) ++ ["Shape"; "StridedSlice"; "StridedSlice"; "Mul"])%list.
Proof.
  intros Hd Hs. rewrite (split_by_factor_run _ _ _ _ _ _ _ Hd Hs).
  change (tf.int32_mul T 0) with (Ok (tf.wrap_int32 (T * 0)) : result Z).
  cbn -[tf.wrap_int32 Z.mul]. rewrite <- !app_assoc. split; reflexivity.
Qed.

(** X6.  When the third static dimension is unknown, [.value] is [None]
    and [state_dim // factor] raises [TypeError] at line 73, for every
    factor that the product before it accepts, that is, that fits
    int32. *)
Theorem split_by_factor_unknown_dimension (t : tf.Tensor A) (f : Z)
  (st : State A) (B T : Z) (rest : list Z) :
  tf.dims t = B :: T :: rest ->
  nth_error (tf.static_shape t) 2 = Some None ->
  tf.fits_int32 f = true ->
  exists msg, fst (split_by_factor t f st) = Err (TypeError msg, [73%nat]).
Proof.
  intros Hd Hs Hf. rewrite (split_by_factor_run _ _ _ _ _ _ _ Hd Hs).
  unfold tf.int32_mul. rewrite Hf.
  cbn -[tf.wrap_int32 Z.mul]. eexists. reflexivity.
Qed.

End SplitOutcomes.

Section SplitAlgebra.
Context {A : Type}.

Lemma wf_split_output (data : list A) (B T q : Z) :
  0 <= B <= tf.int32_max -> 0 <= T <= tf.int32_max ->
  0 <= q <= tf.int32_max ->
  Z.of_nat (length data) = B * T * q ->
  tf.wf (tf.mkTensor [None; None; Some q] [B; T; q] data) = true.
Proof.
  intros [HB HB'] [HT HT'] [Hq Hq'] Hlen. unfold tf.wf, tf.numel.
  cbn [tf.dims tf.static_shape tf.data forallb tf.static_agrees
       tf.dim_agrees fold_right].
  rewrite (proj2 (Z.leb_le 0 B) HB), (proj2 (Z.leb_le 0 T) HT),
    (proj2 (Z.leb_le 0 q) Hq), (proj2 (Z.leb_le _ _) HB'),
    (proj2 (Z.leb_le _ _) HT'), (proj2 (Z.leb_le _ _) Hq'), Z.eqb_refl.
  cbn [andb]. apply Z.eqb_eq. lia.
Qed.

(** X1.  Whatever the tensor and the factor, a tensor that
    [split_by_factor] returns has rank 3 and holds the elements of its
    argument in the same order; the call changes no attribute, no cache
    entry and no registered part. *)
Theorem split_by_factor_keeps_elements (t out : tf.Tensor A) (f : Z)
  (st : State A) :
  fst (split_by_factor t f st) = Ok out ->
  tf.data out = tf.data t
  /\ length (tf.dims out) = 3%nat
  /\ store (snd (split_by_factor t f st)) = store st
  /\ cache (snd (split_by_factor t f st)) = cache st
  /\ parts (graph (snd (split_by_factor t f st))) = parts (graph st).
Proof.
  intros H. destruct (split_by_factor_result _ _ _ _ H) as (Hd & Hr).
  destruct (split_by_factor_frame t f st) as (Hs & Hc & Hp & _).
  repeat split; assumption.
Qed.

(** X4.  A factor of one changes neither the shape nor the elements. *)
Theorem split_by_factor_one (t : tf.Tensor A) (st : State A) (B T F : Z) :
  tf.dims t = [B; T; F] ->
  nth_error (tf.static_shape t) 2 = Some (Some F) ->
  tf.wf t = true ->
  exists out, fst (split_by_factor t 1 st) = Ok out
              /\ tf.dims out = tf.dims t
              /\ tf.data out = tf.data t.
Proof.
  intros Hd Hs Hwf.
  destruct (wf_rank3_int32 _ _ _ _ Hwf Hd) as (_ & HT32 & _).
  rewrite (split_by_factor_ok _ 1 _ B T F Hd Hs Hwf)
    by (lia || apply Z.mod_1_r || (unfold tf.int32_max; lia)).
  eexists. split; [reflexivity|]. cbn [tf.dims tf.data].
  rewrite Hd, Z.mul_1_r, Z.div_1_r. split; reflexivity.
Qed.

(** X3.  Splitting by [f1] and the result by [f2] gives the tensor that
    splitting by [f1 * f2] gives, as long as [f1 * f2] and the final
    length [T * (f1 * f2)] fit int32. *)
Theorem split_by_factor_compose (t : tf.Tensor A) (f1 f2 : Z)
  (st st' st'' : State A) (B T F : Z) :
  tf.dims t = [B; T; F] ->
  nth_error (tf.static_shape t) 2 = Some (Some F) ->
  tf.wf t = true ->
  0 < f1 -> 0 < f2 -> F mod (f1 * f2) = 0 ->
  f1 * f2 <= tf.int32_max -> T * (f1 * f2) <= tf.int32_max ->
  exists mid out,
    fst (split_by_factor t f1 st) = Ok mid
    /\ fst (split_by_factor mid f2 st') = Ok out
    /\ fst (split_by_factor t (f1 * f2) st'') = Ok out.
Proof.
  intros Hd Hs Hwf H1 H2 Hm H12max HTmax.
  destruct (wf_rank3 _ _ _ _ Hwf Hd) as (HB & HT & HF & Hlen).
  destruct (wf_rank3_int32 _ _ _ _ Hwf Hd) as (HB32 & HT32 & HF32).
  assert (H12 : 0 < f1 * f2) by nia.
  assert (Hf1 : f1 <= tf.int32_max) by nia.
  assert (Hf2 : f2 <= tf.int32_max) by nia.
  assert (HT1 : T * f1 <= tf.int32_max) by nia.
  assert (HT2 : T * f1 * f2 <= tf.int32_max) by (rewrite <- Z.mul_assoc; lia).
  pose proof (exact_division F (f1 * f2) H12 Hm) as Hq.
  set (q := F / (f1 * f2)) in *.
  assert (Hq0 : 0 <= q) by (apply Z.div_pos; lia).
  assert (E1 : F / f1 = f2 * q).
  { rewrite <- Hq. replace (f1 * f2 * q) with (f2 * q * f1) by ring.
    apply Z.div_mul. lia. }
  assert (M1 : F mod f1 = 0).
  { rewrite <- Hq. replace (f1 * f2 * q) with (f2 * q * f1) by ring.
    apply Z.mod_mul. lia. }
  assert (E2 : f2 * q / f2 = q).
  { rewrite Z.mul_comm. apply Z.div_mul. lia. }
  assert (M2 : (f2 * q) mod f2 = 0).
  { rewrite Z.mul_comm. apply Z.mod_mul. lia. }
  assert (Hmid : tf.wf (tf.mkTensor [None; None; Some (f2 * q)]
                          [B; T * f1; f2 * q] (tf.data t)) = true).
  { apply wf_split_output; [lia | nia | nia |].
    rewrite Hlen, <- Hq. ring. }
  eexists _, _. split.
  { apply (split_by_factor_ok _ _ _ B T F); assumption. }
  rewrite E1. split.
  - rewrite (split_by_factor_ok _ f2 st' B (T * f1) (f2 * q));
      reflexivity || assumption.
  - rewrite (split_by_factor_ok _ _ _ B T F Hd Hs Hwf H12 Hm H12max HTmax).
    fold q. rewrite E2. cbn [tf.data].
    replace (T * (f1 * f2)) with (T * f1 * f2) by ring. reflexivity.
Qed.

End SplitAlgebra.

(** ** More on the class *)

Section ClassOutcomes.
Context {A : Type}.
Variable tf_layers_dense :
  tf.Tensor A -> value A -> value A -> Graph -> result (tf.Tensor A) * Graph.

Lemma tensor_miss_graph (name : string) (func : obj_id -> M A (tf.Tensor A))
  (self : obj_id) (st : State A) :
  cache st !! (self, name) = None ->
  graph (snd (tensor name func self st)) = graph (snd (func self st))
  /\ store (snd (tensor name func self st)) = store (snd (func self st)).
Proof.
  intros H. unfold tensor. rewrite H.
  destruct (func self st) as [[v|e] st']; split; reflexivity.
Qed.


(** X9.  The call of the class leaves the attributes of every object
    that existed before as they were. *)
Theorem failed_construction_spares_other_objects
  (parent : TemporalStateful.t A) (factor : Z) (ps : option Z)
  (pa : option (Callable A)) (st : State A) (o : obj_id) :
  is_Some (store st !! o) ->
  store (snd (SequenceSplitter.new parent factor ps pa st)) !! o
  = store st !! o.
Proof.
  intros Ho. rewrite new_run.
  assert (Hne : fresh (dom (store st)) <> o).
  { intros <-. apply elem_of_dom in Ho. exact (is_fresh _ Ho). }
  unfold init_prefix, bind, ModelPart.__init__, setattr,
    SequenceSplitter.allocate.
  cbv beta iota. cbn [snd fst store with_store with_graph].
  rewrite !lookup_insert_ne by assumption. reflexivity.
Qed.

(** X10.  With a falsy [projection_size] ([None] or [0]) the branch of
    line 47 is not taken: [temporal_states] gives the same result and the
    same state whatever the dense layer would do. *)
Theorem no_projection_ignores_dense
  (dense' : tf.Tensor A -> value A -> value A -> Graph
            -> result (tf.Tensor A) * Graph)
  (st : State A) (self : obj_id) (size : value A) :
  attrs_of st self !! "projection_size" = Some size ->
  truthy size = false ->
  SequenceSplitter.temporal_states tf_layers_dense self st
  = SequenceSplitter.temporal_states dense' self st.
Proof.
  intros Hs Ht.
  assert (E : SequenceSplitter.temporal_states_func tf_layers_dense self st
              = SequenceSplitter.temporal_states_func dense' self st).
  { unfold SequenceSplitter.temporal_states_func, bind, at_line.
    destruct (getattr self "parent" st) as [[v|e] st1] eqn:Ep.
    2:{ destruct e as [e tb]. reflexivity. }
    assert (st1 = st) as ->.
    { unfold getattr in Ep. destruct (attrs_of st self !! "parent");
        inversion Ep; reflexivity. }
    run_step. destruct (attr_temporal_states v) as [ts|[e tb]];
      [|reflexivity].
    run_step. rewrite (getattr_run st self "projection_size" _ Hs).
    run_step. rewrite Ht. reflexivity. }
  unfold SequenceSplitter.temporal_states, tensor. rewrite E. reflexivity.
Qed.

(** X11.  With [projection_size] set, line 47 does call the dense layer:
    the tensors and parts it puts in the graph are still there after
    [temporal_states], followed by those of the split, although its
    result is dropped. *)
Theorem projection_effects_persist (st : State A) (self : obj_id)
  (p : TemporalStateful.t A) (f : Z) (size act : value A)
  (projected : tf.Tensor A) (g : Graph) :
  constructed st self p f size act ->
  cache st !! (self, "temporal_states") = None ->
  truthy size = true ->
  tf_layers_dense (TemporalStateful.temporal_states p) size act (graph st)
  = (Ok projected, g) ->
  let st' := snd (SequenceSplitter.temporal_states tf_layers_dense self st) in
  parts (graph st') = parts g
  /\ store st' = store st
  /\ exists new, tensors (graph st') = (tensors g ++ new)%list.
Proof.
  intros (Hp & Hf & Hs & Ha) Hn Ht Hd. cbv zeta.
  unfold SequenceSplitter.temporal_states.
  destruct (tensor_miss_graph "temporal_states"
              (SequenceSplitter.temporal_states_func tf_layers_dense)
              self st Hn) as (-> & ->).
  unfold SequenceSplitter.temporal_states_func, bind, at_line.
  rewrite (getattr_run st self "parent" _ Hp). run_step.
  rewrite (getattr_run st self "projection_size" _ Hs). run_step.
  rewrite Ht. unfold bind, at_line.
  rewrite (getattr_run st self "projection_size" _ Hs). run_step.
  rewrite (getattr_run st self "activation" _ Ha). run_step.
  unfold SequenceSplitter.call_dense. rewrite Hd. run_step.
  rewrite (getattr_run (with_graph st g) self "parent" _ Hp). run_step.
  rewrite (getattr_run (with_graph st g) self "factor" _ Hf). run_step.
  destruct (split_by_factor_frame (TemporalStateful.temporal_states p) f
              (with_graph st g)) as (H1 & _ & H3 & new & H4).
  destruct (split_by_factor _ f (with_graph st g)) as [r st2].
  cbn [snd] in *. repeat split; try assumption. exists new. exact H4.
Qed.

End ClassOutcomes.

Section MaskOutcomes.
Context {A : Type}.
Variable tf_layers_dense :
  tf.Tensor A -> value A -> value A -> Graph -> result (tf.Tensor A) * Graph.

(** X12.  With a factor below one, [self.factor * [...]] is the empty
    list, [tf.stack] refuses it and [temporal_mask] raises from line 54;
    nothing is cached. *)
Theorem temporal_mask_needs_positive_factor (st : State A) (self : obj_id)
  (p : TemporalStateful.t A) (f : Z) (size act : value A) (B T : Z) :
  constructed st self p f size act ->
  cache st !! (self, "temporal_mask") = None ->
  tf.dims (TemporalStateful.temporal_mask p) = [B; T] ->
  f <= 0 ->
  (exists e, fst (SequenceSplitter.temporal_mask self st) = Err (e, [54%nat]))
  /\ cache (snd (SequenceSplitter.temporal_mask self st)) = cache st.
Proof.
  intros (Hp & Hf & Hs & Ha) Hn Hd Hle.
  unfold SequenceSplitter.temporal_mask, tensor. rewrite Hn.
  unfold SequenceSplitter.temporal_mask_func, bind, at_line.
  rewrite (getattr_run st self "factor" _ Hf). run_step.
  rewrite (getattr_run st self "parent" _ Hp). run_step.
  unfold tf_op at 1. unfold tf.expand_dims. rewrite Hd.
  cbn [length]. change (tf.new_axis 2 2) with (Some 2%nat). run_step.
  unfold py_list_repeat. replace (Z.to_nat f) with 0%nat by lia.
  cbn. split; [eexists; reflexivity | reflexivity].
Qed.

Lemma split_mask_get (st : State A) (self : obj_id)
  (p : TemporalStateful.t A) (f : Z) (size act : value A) (B T : Z) :
  constructed st self p f size act ->
  cache st !! (self, "temporal_mask") = None ->
  tf.dims (TemporalStateful.temporal_mask p) = [B; T] ->
  tf.wf (TemporalStateful.temporal_mask p) = true ->
  0 < f ->
  f <= tf.int32_max -> T * f <= tf.int32_max ->
  exists out,
    fst (SequenceSplitter.temporal_mask self st) = Ok out
    /\ tf.dims out = [B; T * f]
    /\ forall b u, 0 <= b < B -> 0 <= u < T * f ->
         tf.get out [b; u]
         = tf.get (TemporalStateful.temporal_mask p) [b; u / f].
Proof.
  intros Hc Hn Hd Hwf Hf Hf32 Hm32.
  pose proof (temporal_mask_func_value _ _ _ _ _ _ _ _ Hc Hd Hwf Hf
                Hf32 Hm32) as Hk.
  destruct (wf_rank2 _ _ _ Hwf Hd) as (HB & HT & Hlen & _).
  eexists. unfold SequenceSplitter.temporal_mask.
  rewrite (tensor_miss _ _ _ _ Hn), Hk.
  split; [reflexivity|]. split; [reflexivity|].
  intros b u Hb Hu.
  pose proof (Z.div_mod u f ltac:(lia)) as E.
  pose proof (Z.mod_pos_bound u f Hf) as R.
  assert (Ht : 0 <= u / f < T).
  { split; [apply Z.div_pos; lia|].
    apply Z.div_lt_upper_bound; lia. }
  rewrite (get_rank2 _ B (T * f)) by (reflexivity || lia).
  rewrite (get_rank2 _ B T) by (assumption || lia).
  cbn [tf.data].
  replace (Z.to_nat (b * (T * f) + u))
    with (Z.to_nat (b * T + u / f) * Z.to_nat f + Z.to_nat (u mod f))%nat
    by nia.
  apply nth_error_flat_map_repeat. lia.
Qed.

(** X13.  A mask row made of [n] valid positions followed by padding
    becomes a row of [n * factor] valid positions followed by padding,
    the factor and the new length [T * factor] fitting int32. *)
Theorem split_mask_scales_lengths (st : State A) (self : obj_id)
  (p : TemporalStateful.t A) (f : Z) (size act : value A) (B T : Z)
  (b n : Z) (valid pad : A) :
  constructed st self p f size act ->
  cache st !! (self, "temporal_mask") = None ->
  tf.dims (TemporalStateful.temporal_mask p) = [B; T] ->
  tf.wf (TemporalStateful.temporal_mask p) = true ->
  0 < f ->
  f <= tf.int32_max -> T * f <= tf.int32_max ->
  0 <= b < B -> 0 <= n <= T ->
  (forall t, 0 <= t < n ->
     tf.get (TemporalStateful.temporal_mask p) [b; t] = Some valid) ->
  (forall t, n <= t < T ->
     tf.get (TemporalStateful.temporal_mask p) [b; t] = Some pad) ->
  exists out,
    fst (SequenceSplitter.temporal_mask self st) = Ok out
    /\ (forall u, 0 <= u < n * f -> tf.get out [b; u] = Some valid)
    /\ (forall u, n * f <= u < T * f -> tf.get out [b; u] = Some pad).
Proof.
  intros Hc Hn Hd Hwf Hf Hf32 Hm32 Hb Hnn Hvalid Hpad.
  destruct (split_mask_get _ _ _ _ _ _ _ _ Hc Hn Hd Hwf Hf Hf32 Hm32)
    as (out & Hout & _ & Hget).
  exists out. split; [exact Hout|]. split; intros u Hu.
  - rewrite Hget by nia. apply Hvalid.
    split; [apply Z.div_pos; lia|].
    apply Z.div_lt_upper_bound; lia.
  - rewrite Hget by nia. apply Hpad. split.
    + apply Z.div_le_lower_bound; lia.
    + apply Z.div_lt_upper_bound; lia.
Qed.

(** X14.  With the factor and the new length [T * factor] fitting
    int32, the states and the mask a splitter returns are well formed,
    agree on batch and time, and the states have a known static feature
    dimension: they meet what a splitter asks of its parent, with shape
    [B, T*factor, F/factor]. *)
Theorem split_outputs_chain (st : State A) (self : obj_id)
  (p : TemporalStateful.t A) (f : Z) (size act : value A) (B T F : Z)
  (id : obj_id) (deps : gset obj_id) :
  constructed st self p f size act ->
  not_accessed st self ->
  parent_shape p B T F ->
  0 < f -> F mod f = 0 ->
  f <= tf.int32_max -> T * f <= tf.int32_max ->
  projection_builds tf_layers_dense st p size act ->
  exists states mask,
    fst (SequenceSplitter.temporal_states tf_layers_dense self st) = Ok states
    /\ fst (SequenceSplitter.temporal_mask self st) = Ok mask
    /\ parent_shape (TemporalStateful.mk id states mask deps)
                    B (T * f) (F / f).
Proof.
  intros Hc (Hn1 & Hn2) Hp Hf Hm Hf32 Hm32 Hb.
  pose proof (temporal_states_func_split _ _ _ _ _ _ _ _ _ _ Hc Hp Hf Hm
                Hf32 Hm32 Hb) as Hs.
  destruct Hp as (Hsd & _ & Hswf & Hmd & Hmwf).
  pose proof (temporal_mask_func_value _ _ _ _ _ _ _ _ Hc Hmd Hmwf Hf
                Hf32 Hm32) as Hk.
  destruct (wf_rank3 _ _ _ _ Hswf Hsd) as (HB & HT & HF & Hslen).
  destruct (wf_rank3_int32 _ _ _ _ Hswf Hsd) as (HB32 & HT32 & HF32).
  destruct (wf_rank2 _ _ _ Hmwf Hmd) as (_ & _ & Hmlen & _).
  pose proof (exact_division F f Hf Hm) as Hq.
  assert (Hq0 : 0 <= F / f) by (apply Z.div_pos; lia).
  assert (Hq1 : F / f <= tf.int32_max) by nia.
  eexists _, _.
  unfold SequenceSplitter.temporal_states, SequenceSplitter.temporal_mask.
  rewrite (tensor_miss _ _ _ _ Hn1), (tensor_miss _ _ _ _ Hn2), Hs, Hk.
  split; [reflexivity|]. split; [reflexivity|].
  unfold parent_shape. cbn [TemporalStateful.temporal_states
    TemporalStateful.temporal_mask tf.dims tf.static_shape nth_error].
  split; [reflexivity|]. split; [reflexivity|]. split.
  { apply wf_split_output; [lia | nia | lia |].
    rewrite Hslen, <- Hq at 1. ring. }
  split; [reflexivity|].
  unfold tf.wf, tf.numel.
  cbn [tf.dims tf.static_shape tf.data forallb tf.static_agrees
       tf.dim_agrees fold_right].
  rewrite (proj2 (Z.leb_le 0 B) HB), (proj2 (Z.leb_le _ _) HB32).
  rewrite (proj2 (Z.leb_le 0 (T * f))) by nia.
  rewrite (proj2 (Z.leb_le _ _) Hm32).
  cbn [andb]. apply Z.eqb_eq.
  rewrite length_flat_map_repeat. nia.
Qed.

End MaskOutcomes.

(** ** What the accessors leave alone *)

Section Frames.
Context {A : Type}.
Variable tf_layers_dense :
  tf.Tensor A -> value A -> value A -> Graph -> result (tf.Tensor A) * Graph.

Local Abbreviation keeps m :=
  (forall st : State A,
     store (snd (m st)) = store st /\ cache (snd (m st)) = cache st).

Lemma keeps_ret {X : Type} (x : X) : keeps (ret (A:=A) x).
Proof. intros st. split; reflexivity. Qed.

Lemma keeps_lift {X : Type} (r : result X) : keeps (lift (A:=A) r).
Proof. intros st. split; reflexivity. Qed.

Lemma keeps_getattr (o : obj_id) (name : string) : keeps (getattr (A:=A) o name).
Proof.
  intros st. unfold getattr.
  destruct (attrs_of st o !! name); split; reflexivity.
Qed.

Lemma keeps_tf_op {X : Type} (op : string) (r : result X) :
  keeps (tf_op (A:=A) op r).
Proof. intros st. unfold tf_op. destruct r; split; reflexivity. Qed.

Lemma keeps_call_dense (t : tf.Tensor A) (u a : value A) :
  keeps (SequenceSplitter.call_dense tf_layers_dense t u a).
Proof.
  intros st. unfold SequenceSplitter.call_dense.
  destruct (tf_layers_dense t u a (graph st)); split; reflexivity.
Qed.

Lemma keeps_split_by_factor (t : tf.Tensor A) (f : Z) :
  keeps (split_by_factor t f).
Proof.
  intros st. destruct (split_by_factor_frame t f st) as (H1 & H2 & _).
  split; assumption.
Qed.

Lemma keeps_bind {X Y : Type} (m : M A X) (k : X -> M A Y) :
  keeps m -> (forall x, keeps (k x)) -> keeps (bind m k).
Proof.
  intros Hm Hk st. unfold bind. specialize (Hm st).
  destruct (m st) as [[x|e] st1]; cbn [snd] in Hm.
  - destruct (Hk x st1) as (H1 & H2). destruct Hm as (H3 & H4).
    split; congruence.
  - exact Hm.
Qed.

Lemma keeps_at_line {X : Type} (n : nat) (m : M A X) :
  keeps m -> keeps (at_line n m).
Proof.
  intros Hm st. unfold at_line. specialize (Hm st).
  destruct (m st) as [r st1]. exact Hm.
Qed.

Lemma keeps_temporal_states_func (self : obj_id) :
  keeps (SequenceSplitter.temporal_states_func tf_layers_dense self).
Proof.
  unfold SequenceSplitter.temporal_states_func.
  repeat first
    [ apply keeps_split_by_factor
    | apply keeps_getattr
    | apply keeps_lift
    | apply keeps_ret
    | apply keeps_call_dense
    | apply keeps_at_line
    | apply keeps_bind; [|intros ?]
    | match goal with |- context [if ?b then _ else _] => destruct b end ].
Qed.

Lemma keeps_temporal_mask_func (self : obj_id) :
  keeps (SequenceSplitter.temporal_mask_func (A:=A) self).
Proof.
  unfold SequenceSplitter.temporal_mask_func.
  repeat first
    [ apply keeps_split_by_factor
    | apply keeps_getattr
    | apply keeps_lift
    | apply keeps_tf_op
    | apply keeps_at_line
    | apply keeps_bind; [|intros ?] ].
Qed.

Lemma accessors_frame (st : State A) (self : obj_id) :
  let s1 := snd (SequenceSplitter.temporal_states tf_layers_dense self st) in
  let s2 := snd (SequenceSplitter.temporal_mask self st) in
  store s1 = store st
  /\ store s2 = store st
  /\ (forall k, k <> (self, "temporal_states") -> cache s1 !! k = cache st !! k)
  /\ (forall k, k <> (self, "temporal_mask") -> cache s2 !! k = cache st !! k).
Proof.
  cbv zeta.
  unfold SequenceSplitter.temporal_states, SequenceSplitter.temporal_mask,
    tensor.
  pose proof (keeps_temporal_states_func self st) as (S1 & C1).
  pose proof (keeps_temporal_mask_func self st) as (S2 & C2).
  destruct (cache st !! (self, "temporal_states")),
    (cache st !! (self, "temporal_mask"));
    destruct (SequenceSplitter.temporal_states_func _ self st) as [[v1|e1] t1];
    destruct (SequenceSplitter.temporal_mask_func self st) as [[v2|e2] t2];
    cbn [snd store cache] in *;
    repeat split; try assumption; try reflexivity; intros k Hk;
    rewrite ?lookup_insert_ne by congruence; congruence.
Qed.


(** X16.  With the factor and the new length [T * factor] fitting
    int32, the mask read after [temporal_states] has been read (built or
    failed) is the mask read first. *)
Theorem mask_after_states (st : State A) (self : obj_id)
  (p : TemporalStateful.t A) (f : Z) (size act : value A) (B T : Z) :
  constructed st self p f size act ->
  cache st !! (self, "temporal_mask") = None ->
  tf.dims (TemporalStateful.temporal_mask p) = [B; T] ->
  tf.wf (TemporalStateful.temporal_mask p) = true ->
  0 < f ->
  f <= tf.int32_max -> T * f <= tf.int32_max ->
  exists mask,
    fst (SequenceSplitter.temporal_mask self st) = Ok mask
    /\ fst (SequenceSplitter.temporal_mask self
              (snd (SequenceSplitter.temporal_states tf_layers_dense self st)))
       = Ok mask.
Proof.
  intros Hc Hn Hd Hwf Hf Hf32 Hm32.
  destruct (accessors_frame st self) as (S1 & _ & C1 & _).
  set (s1 := snd (SequenceSplitter.temporal_states tf_layers_dense self st))
    in *.
  assert (Hc1 : constructed s1 self p f size act).
  { unfold constructed, attrs_of in *. rewrite S1. exact Hc. }
  assert (Hn1 : cache s1 !! (self, "temporal_mask") = None).
  { rewrite C1 by congruence. exact Hn. }
  eexists. unfold SequenceSplitter.temporal_mask.
  rewrite (tensor_miss _ _ _ _ Hn), (tensor_miss _ _ _ _ Hn1).
  rewrite (temporal_mask_func_value _ _ _ _ _ _ _ _ Hc Hd Hwf Hf Hf32 Hm32).
  rewrite (temporal_mask_func_value _ _ _ _ _ _ _ _ Hc1 Hd Hwf Hf Hf32 Hm32).
  split; reflexivity.
Qed.

End Frames.

(** ** The further properties at concrete inputs *)

Lemma split_by_factor_keeps_elements_witness :
  fst (split_by_factor
         (TemporalStateful.temporal_states Examples.parent_2_3_4) 2
         Examples.empty_state)
  = Ok (tf.mkTensor [None; None; Some 2] [2; 6; 2] (map Z.of_nat (seq 0 24)))
  /\ tf.data (tf.mkTensor [None; None; Some 2] [2; 6; 2]
                (map Z.of_nat (seq 0 24)))
     = tf.data (TemporalStateful.temporal_states Examples.parent_2_3_4)
  /\ length [2; 6; 2] = 3%nat.
Proof.
  assert (H : fst (split_by_factor
                     (TemporalStateful.temporal_states Examples.parent_2_3_4)
                     2 Examples.empty_state)
              = Ok (tf.mkTensor [None; None; Some 2] [2; 6; 2]
                      (map Z.of_nat (seq 0 24))))
    by reflexivity.
  split; [exact H|].
  destruct (split_by_factor_keeps_elements _ _ _ _ H) as (Hd & Hr & _).
  split; [exact Hd | exact Hr].
Defined.

Lemma split_by_factor_compose_witness :
  exists mid out,
    fst (split_by_factor
           (TemporalStateful.temporal_states Examples.parent_2_3_4) 2
           Examples.empty_state) = Ok mid
    /\ fst (split_by_factor mid 2 Examples.empty_state) = Ok out
    /\ fst (split_by_factor
              (TemporalStateful.temporal_states Examples.parent_2_3_4) (2 * 2)
              Examples.empty_state) = Ok out.
Proof.
  apply (split_by_factor_compose
           (TemporalStateful.temporal_states Examples.parent_2_3_4) 2 2
           Examples.empty_state Examples.empty_state Examples.empty_state
           2 3 4);
    reflexivity || lia || (unfold tf.int32_max; lia).
Defined.

Lemma split_by_factor_one_witness :
  exists out,
    fst (split_by_factor
           (TemporalStateful.temporal_states Examples.parent_2_3_4) 1
           Examples.empty_state) = Ok out
    /\ tf.dims out
       = tf.dims (TemporalStateful.temporal_states Examples.parent_2_3_4)
    /\ tf.data out
       = tf.data (TemporalStateful.temporal_states Examples.parent_2_3_4).
Proof.
  apply (split_by_factor_one
           (TemporalStateful.temporal_states Examples.parent_2_3_4)
           Examples.empty_state 2 3 4);
    reflexivity.
Defined.

Lemma split_by_factor_zero_factor_witness :
  fst (split_by_factor
         (TemporalStateful.temporal_states Examples.parent_2_3_4) 0
         Examples.empty_state)
  = Err (ZeroDivisionError, [73%nat])
  /\ tensors (graph (snd (split_by_factor
                            (TemporalStateful.temporal_states
                               Examples.parent_2_3_4) 0
                            Examples.empty_state)))
     = (tensors (graph Examples.empty_state)
        ++ ["Shape"; "StridedSlice"; "StridedSlice"; "Mul"])%list.
Proof.
  apply (split_by_factor_zero_factor
           (TemporalStateful.temporal_states Examples.parent_2_3_4)
           Examples.empty_state 2 3 4 [4]);
    reflexivity.
Defined.

Lemma split_by_factor_unknown_dimension_witness :
  tf.fits_int32 2 = true
  /\ exists msg,
    fst (split_by_factor MoreExamples.states_unknown_dim 2
                         Examples.empty_state)
    = Err (TypeError msg, [73%nat]).
Proof.
  split; [reflexivity|].
  apply (split_by_factor_unknown_dimension MoreExamples.states_unknown_dim 2
           Examples.empty_state 2 3 [4]);
    reflexivity.
Defined.


Lemma failed_construction_spares_other_objects_witness :
  is_Some (store (Examples.instance VNone VNone) !! 1%positive)
  /\ store (snd (SequenceSplitter.new Examples.parent_1_1_5 2 None None
                   (Examples.instance VNone VNone))) !! 1%positive
     = store (Examples.instance VNone VNone) !! 1%positive.
Proof.
  assert (H : is_Some (store (Examples.instance VNone VNone) !! 1%positive))
    by (eexists; reflexivity).
  split; [exact H|].
  apply (failed_construction_spares_other_objects Examples.parent_1_1_5 2
           None None (Examples.instance VNone VNone) 1%positive H).
Defined.

Lemma no_projection_ignores_dense_witness :
  truthy (VInt 0 : value Z) = false
  /\ SequenceSplitter.temporal_states Examples.dense_ok 1%positive
       (Examples.instance (VInt 0) VNone)
     = SequenceSplitter.temporal_states MoreExamples.dense_fails 1%positive
         (Examples.instance (VInt 0) VNone).
Proof.
  split; [reflexivity|].
  apply (no_projection_ignores_dense Examples.dense_ok
           MoreExamples.dense_fails (Examples.instance (VInt 0) VNone)
           1%positive (VInt 0));
    reflexivity.
Defined.

Lemma projection_effects_persist_witness :
  truthy (VInt 8 : value Z) = true
  /\ parts (graph (snd (SequenceSplitter.temporal_states Examples.dense_ok
                          1%positive (Examples.instance (VInt 8) VNone))))
     = [("sequence_split", 1%positive)]
  /\ exists new,
       tensors (graph (snd (SequenceSplitter.temporal_states
                              Examples.dense_ok 1%positive
                              (Examples.instance (VInt 8) VNone))))
       = (["dense/kernel"; "dense/BiasAdd"] ++ new)%list.
Proof.
  split; [reflexivity|].
  destruct (projection_effects_persist Examples.dense_ok
              (Examples.instance (VInt 8) VNone) 1%positive
              Examples.parent_2_3_4 2 (VInt 8) VNone
              (tf.mkTensor [None; None; Some 1] [0; 0; 1] [])
              (mkGraph ["dense/kernel"; "dense/BiasAdd"]
                       [("sequence_split", 1%positive)])
              ltac:(repeat split; reflexivity) eq_refl eq_refl eq_refl)
    as (Hp & _ & Ht).
  split; [exact Hp | exact Ht].
Defined.

Lemma temporal_mask_needs_positive_factor_witness :
  (exists e,
     fst (SequenceSplitter.temporal_mask 1%positive
            (MoreExamples.instance_with_factor 0 VNone VNone))
     = Err (e, [54%nat]))
  /\ cache (snd (SequenceSplitter.temporal_mask 1%positive
                   (MoreExamples.instance_with_factor 0 VNone VNone)))
     = cache (MoreExamples.instance_with_factor 0 VNone VNone).
Proof.
  apply (temporal_mask_needs_positive_factor
           (MoreExamples.instance_with_factor 0 VNone VNone) 1%positive
           Examples.parent_2_3_4 0 VNone VNone 2 3);
    [repeat split; reflexivity | reflexivity | reflexivity | lia].
Defined.

Lemma split_mask_scales_lengths_witness :
  exists out,
    fst (SequenceSplitter.temporal_mask 1%positive
           (Examples.instance VNone VNone)) = Ok out
    /\ (forall u, 0 <= u < 2 * 2 -> tf.get out [0; u] = Some 1)
    /\ (forall u, 2 * 2 <= u < 3 * 2 -> tf.get out [0; u] = Some 0).
Proof.
  apply (split_mask_scales_lengths (Examples.instance VNone VNone) 1%positive
           Examples.parent_2_3_4 2 VNone VNone 2 3 0 2 1 0);
    [repeat split; reflexivity | reflexivity | reflexivity | reflexivity
    | lia | unfold tf.int32_max; lia | unfold tf.int32_max; lia
    | lia | lia | |].
  - intros t Ht. assert (E : t = 0 \/ t = 1) by lia.
    destruct E as [-> | ->]; reflexivity.
  - intros t Ht. assert (E : t = 2) by lia. rewrite E. reflexivity.
Defined.

Lemma split_outputs_chain_witness :
  exists states mask,
    fst (SequenceSplitter.temporal_states Examples.dense_ok 1%positive
           (Examples.instance VNone VNone)) = Ok states
    /\ fst (SequenceSplitter.temporal_mask 1%positive
              (Examples.instance VNone VNone)) = Ok mask
    /\ parent_shape (TemporalStateful.mk 1%positive states mask
                       {[1%positive; 7%positive; 9%positive]})
                    2 (3 * 2) (4 / 2).
Proof.
  apply (split_outputs_chain Examples.dense_ok (Examples.instance VNone VNone)
           1%positive Examples.parent_2_3_4 2 VNone VNone 2 3 4);
    [repeat split; reflexivity | split; reflexivity
    | repeat split; reflexivity | lia | reflexivity
    | unfold tf.int32_max; lia | unfold tf.int32_max; lia
    | intros H; discriminate H].
Defined.

Lemma mask_after_states_witness :
  exists mask,
    fst (SequenceSplitter.temporal_mask 1%positive
           (Examples.instance (VInt 8) VNone)) = Ok mask
    /\ fst (SequenceSplitter.temporal_mask 1%positive
              (snd (SequenceSplitter.temporal_states Examples.dense_ok
                      1%positive (Examples.instance (VInt 8) VNone))))
       = Ok mask.
Proof.
  apply (mask_after_states Examples.dense_ok
           (Examples.instance (VInt 8) VNone) 1%positive
           Examples.parent_2_3_4 2 (VInt 8) VNone 2 3);
    [repeat split; reflexivity | reflexivity | reflexivity | reflexivity
    | lia | unfold tf.int32_max; lia | unfold tf.int32_max; lia].
Defined.
